(** * URL shortener: a shallow embedding of [URLshortener.py]

    The request handlers of the service are embedded as computations in a
    small state-and-exception monad over a [World]: the relational store
    (committed state and the open connection's transaction view), the
    behaviour of the storage layer during the request (driver failures and
    concurrently committing transactions), the two clocks involved (the
    handler's [datetime.now()] and the database's [NOW()]) and the random
    source used by [generate_short_path]. *)

From Stdlib Require Import ZArith List String Ascii Bool Lia Permutation Sorted.
Import ListNotations.

Local Open Scope string_scope.
Local Open Scope list_scope.
Local Open Scope Z_scope.

(** ** Data model *)

(** Timestamps and durations are counted in microseconds, the resolution of
    Python's [datetime] and [timedelta] and of PostgreSQL's [timestamp]. *)
Definition datetime := Z.
Definition timedelta := Z.

(** A row of table [urls]. *)
Module urls.
Record row := mk {
  id : Z;
  original_url : string;
  short_path : string;
  created_at : datetime;
  updated_at : datetime;
  expires_at : option datetime }.
End urls.

(** A row of table [access_logs]. *)
Module access_logs.
Record row := mk {
  id : Z;
  url_id : Z;
  accessed_at : datetime;
  ip_address : option string;
  user_agent : option string }.
End access_logs.

Record DB := mkDB {
  tbl_urls : list urls.row;
  tbl_access_logs : list access_logs.row }.

(** The float of [expires_in_days].  A finite float is carried as the number
    of microseconds that [timedelta(days=...)] makes of it (the rounding of
    that conversion is outside the model); infinity and NaN, which
    [timedelta] rejects, are kept apart. *)
Inductive float_days :=
| finite_days (microseconds : Z)
| inf_days
| nan_days.

(** [class URLCreate(BaseModel)] *)
Module URLCreate.
Record t := mk {
  original_url : string;
  short_path : option string;
  expires_in_days : option float_days }.
End URLCreate.

(** [class URLUpdate(BaseModel)]. *)
Module URLUpdate.
Record t := mk { original_url : string }.
End URLUpdate.

(** What the handlers read from the incoming [Request]: [request.base_url],
    [request.client] (which may be [None]) with its [host], and
    [request.headers.get("user-agent")]. *)
Module Request.
Record t := mk {
  base_url : string;
  client : option string;
  user_agent : option string }.
End Request.

(** ** Exceptions and outcomes *)

Inductive Exn :=
| HTTPException (status_code : Z) (detail : option string)
| psycopg2_Error (pgerror : string)
| AttributeError (msg : string)
| UnboundLocalError (name : string)
| IndexError (msg : string)
| OverflowError (msg : string)
| ValueError (msg : string).

Inductive Outcome (A : Type) :=
| Return (a : A)
| Raise (e : Exn).
Arguments Return {A} a.
Arguments Raise {A} e.

(** ** The world a request runs in *)

(** What the storage layer does at one call of the driver ([connect],
    [execute], [commit]): nothing special, a failure raised by the driver, or
    another transaction committing just before the call takes effect. *)
Inductive Event :=
| Quiet
| DriverFails (pgerror : string)
| Concurrent (other : DB -> DB).

(** [urls_tie] and [access_logs_tie] stand for what SQL leaves open in an
    [ORDER BY]: among rows whose sort keys are equal, the engine returns the
    rows in an order of its own choosing, which may differ from one request
    to the next; here, by descending value of the tie key of the request's
    world. *)
Record World := mkWorld {
  committed : DB;
  session : option DB;
  urls_id_seq : Z;
  access_logs_id_seq : Z;
  schedule : list Event;
  driver_errors : list string;
  py_now : datetime;
  db_now : datetime;
  rng : nat -> nat;
  rng_pos : nat;
  urls_tie : urls.row -> Z;
  access_logs_tie : access_logs.row -> Z }.

Definition with_committed (d : DB) (w : World) : World :=
  mkWorld d (session w) (urls_id_seq w) (access_logs_id_seq w) (schedule w)
          (driver_errors w) (py_now w) (db_now w) (rng w) (rng_pos w)
          (urls_tie w) (access_logs_tie w).

Definition with_session (s : option DB) (w : World) : World :=
  mkWorld (committed w) s (urls_id_seq w) (access_logs_id_seq w) (schedule w)
          (driver_errors w) (py_now w) (db_now w) (rng w) (rng_pos w)
          (urls_tie w) (access_logs_tie w).

Definition with_urls_id_seq (n : Z) (w : World) : World :=
  mkWorld (committed w) (session w) n (access_logs_id_seq w) (schedule w)
          (driver_errors w) (py_now w) (db_now w) (rng w) (rng_pos w)
          (urls_tie w) (access_logs_tie w).

Definition with_access_logs_id_seq (n : Z) (w : World) : World :=
  mkWorld (committed w) (session w) (urls_id_seq w) n (schedule w)
          (driver_errors w) (py_now w) (db_now w) (rng w) (rng_pos w)
          (urls_tie w) (access_logs_tie w).

Definition with_schedule (l : list Event) (w : World) : World :=
  mkWorld (committed w) (session w) (urls_id_seq w) (access_logs_id_seq w) l
          (driver_errors w) (py_now w) (db_now w) (rng w) (rng_pos w)
          (urls_tie w) (access_logs_tie w).

Definition with_driver_errors (l : list string) (w : World) : World :=
  mkWorld (committed w) (session w) (urls_id_seq w) (access_logs_id_seq w)
          (schedule w) l (py_now w) (db_now w) (rng w) (rng_pos w)
          (urls_tie w) (access_logs_tie w).

Definition with_rng_pos (n : nat) (w : World) : World :=
  mkWorld (committed w) (session w) (urls_id_seq w) (access_logs_id_seq w)
          (schedule w) (driver_errors w) (py_now w) (db_now w) (rng w) n
          (urls_tie w) (access_logs_tie w).

(** ** The handler monad: state passing with exceptions *)

Definition Handler (A : Type) := World -> Outcome A * World.

Definition ret {A} (a : A) : Handler A := fun w => (Return a, w).

Definition raise {A} (e : Exn) : Handler A := fun w => (Raise e, w).

Definition bind {A B} (m : Handler A) (k : A -> Handler B) : Handler B :=
  fun w =>
    match m w with
    | (Return a, w') => k a w'
    | (Raise e, w') => (Raise e, w')
    end.

Declare Scope handler_scope.
Delimit Scope handler_scope with handler.
Notation "x <- m ;; k" := (bind m (fun x => k))
  (at level 61, m at next level, right associativity) : handler_scope.
Notation "m ;; k" := (bind m (fun _ => k))
  (at level 61, right associativity) : handler_scope.
Local Open Scope handler_scope.

(** [try: body except ...: handler].  The handler says which exceptions its
    clauses match. *)
Definition try_except {A} (body : Handler A)
    (handler : Exn -> option (Handler A)) : Handler A :=
  fun w =>
    match body w with
    | (Return a, w') => (Return a, w')
    | (Raise e, w') =>
        match handler e with
        | Some h => h w'
        | None => (Raise e, w')
        end
    end.

(** [try: body finally: cleanup]. *)
Definition try_finally {A} (body : Handler A) (cleanup : Handler unit)
    : Handler A :=
  fun w =>
    match body w with
    | (o, w') =>
        match cleanup w' with
        | (Return _, w'') => (o, w'')
        | (Raise e, w'') => (Raise e, w'')
        end
    end.

(** [except psycopg2.Error as e] *)
Definition except_psycopg2_Error {A} (h : string -> Handler A)
    : Exn -> option (Handler A) :=
  fun e => match e with psycopg2_Error m => Some (h m) | _ => None end.

(** [except Exception as e]: every exception of the model, [HTTPException]
    included, is an [Exception]. *)
Definition except_Exception {A} (h : Exn -> Handler A)
    : Exn -> option (Handler A) :=
  fun e => Some (h e).

Definition when (b : bool) (m : Handler unit) : Handler unit :=
  if b then m else ret tt.

(** ** Clocks and randomness *)

(** [datetime.now()] *)
Definition datetime_now : Handler datetime := fun w => (Return (py_now w), w).

(** [NOW()] inside a statement. *)
Definition sql_NOW : Handler datetime := fun w => (Return (db_now w), w).

Definition days (n : Z) : timedelta := n * 86400 * 1000000.

(** [datetime.min] and [datetime.max], in microseconds from the epoch:
    0001-01-01 00:00:00 and 9999-12-31 23:59:59.999999. *)
Definition datetime_min : datetime := - (days 719162).
Definition datetime_max : datetime := days 2932897 - 1.

(** [timedelta(days=x)]: NaN and infinity cannot be converted, and a
    [timedelta] holds at most 999999999 days either way. *)
Definition timedelta_days (x : float_days) : Handler timedelta :=
  match x with
  | nan_days => raise (ValueError "cannot convert float NaN to integer")
  | inf_days => raise (OverflowError "cannot convert float infinity to integer")
  | finite_days us =>
      if (us / days 1 <? -999999999) || (999999999 <? us / days 1)
      then raise (OverflowError "days must have magnitude <= 999999999")
      else ret us
  end.

(** [t + delta] on a [datetime]: the result has to be a [datetime]. *)
Definition datetime_add (t : datetime) (delta : timedelta) : Handler datetime :=
  if (t + delta <? datetime_min) || (datetime_max <? t + delta)
  then raise (OverflowError "date value out of range")
  else ret (t + delta).

Definition ascii_lowercase : string := "abcdefghijklmnopqrstuvwxyz".
Definition digits : string := "0123456789".

(** [random.choice(seq)]: [seq[randbelow(len(seq))]]. *)
Definition random_choice (seq : string) : Handler ascii :=
  fun w =>
    let r := rng w (rng_pos w) in
    let w' := with_rng_pos (S (rng_pos w)) w in
    match String.get (Nat.modulo r (String.length seq)) seq with
    | Some c => (Return c, w')
    | None => (Raise (IndexError "Cannot choose from an empty sequence"), w')
    end.

(** [''.join(random.choice(chars) for _ in range(n))] *)
Fixpoint join_choices (chars : string) (n : nat) : Handler string :=
  match n with
  | O => ret EmptyString
  | S n' =>
      c <- random_choice chars ;;
      rest <- join_choices chars n' ;;
      ret (String c rest)
  end.

Definition generate_short_path : Handler string :=
  let chars := (ascii_lowercase ++ digits)%string in
  join_choices chars 6.

(** ** The storage layer

    The database engine and the [psycopg2] driver are collaborators of the
    handlers; they are modelled by what a handler can observe of them. *)

(** The event the storage layer has in store for the next driver call. *)
Definition next_event : Handler Event :=
  fun w => (Return (hd Quiet (schedule w)), with_schedule (tl (schedule w)) w).

(** The driver raises a [psycopg2.Error]; [driver_errors] keeps the history of
    the errors raised (ghost state, no handler reads it). *)
Definition driver_raise {A} (pgerror : string) : Handler A :=
  fun w => (Raise (psycopg2_Error pgerror),
            with_driver_errors (pgerror :: driver_errors w) w).

(** Every driver call first meets the storage layer's next event.  A
    concurrent transaction that commits is seen by the store and by the
    following statements of the open transaction. *)
Definition storage_call : Handler unit :=
  ev <- next_event ;;
  match ev with
  | Quiet => ret tt
  | DriverFails pgerror => driver_raise pgerror
  | Concurrent other =>
      fun w => (Return tt,
                with_session (option_map other (session w))
                  (with_committed (other (committed w)) w))
  end.

(** On entry to a handler no local [conn] holds a connection
    ([conn = None], or [conn] not yet in [locals()]). *)
Definition conn_unset : Handler unit :=
  fun w => (Return tt, with_session None w).

(** [conn = get_db_connection()]: [psycopg2.connect(DATABASE_URL)]. *)
Definition get_db_connection : Handler unit :=
  storage_call ;;
  fun w => (Return tt, with_session (Some (committed w)) w).

(** [if conn:] and ['conn' in locals()]. *)
Definition conn_bound : Handler bool :=
  fun w => (Return (match session w with Some _ => true | None => false end), w).

(** A statement either is rejected with the text of the error, or returns a
    result and the transaction's new view of the tables. *)
Definition Statement (A : Type) := DB -> string + (A * DB).

Definition run_sql {A} (stmt : Statement A) : Handler A :=
  fun w =>
    match session w with
    | None => driver_raise "connection already closed" w
    | Some db =>
        match stmt db with
        | inl pgerror => driver_raise pgerror w
        | inr (a, db') => (Return a, with_session (Some db') w)
        end
    end.

(** [cur.execute(...)] of a statement that needs neither [NOW()] nor a
    sequence, followed by the fetch of its result. *)
Definition execute {A} (stmt : Statement A) : Handler A :=
  storage_call ;; run_sql stmt.

(** [conn.commit()] *)
Definition conn_commit : Handler unit :=
  storage_call ;;
  fun w =>
    match session w with
    | Some db => (Return tt, with_committed db w)
    | None => driver_raise "connection already closed" w
    end.

(** [conn.rollback()].  Evaluating [conn] where no connection was bound
    raises (in [delete_url], whose handler does not guard the call).  On an
    open connection [rollback] and [close] are taken not to fail. *)
Definition conn_rollback : Handler unit :=
  fun w =>
    match session w with
    | Some _ => (Return tt, with_session (Some (committed w)) w)
    | None => (Raise (UnboundLocalError "conn"), w)
    end.

(** [conn.close()]: what was not committed is lost. *)
Definition conn_close : Handler unit :=
  fun w => (Return tt, with_session None w).

(** [nextval] of the sequences behind the [id] columns; sequences are not
    rolled back. *)
Definition nextval_urls_id : Handler Z :=
  fun w => (Return (urls_id_seq w), with_urls_id_seq (urls_id_seq w + 1) w).

Definition nextval_access_logs_id : Handler Z :=
  fun w => (Return (access_logs_id_seq w),
            with_access_logs_id_seq (access_logs_id_seq w + 1) w).

(** ** The SQL statements of the handlers *)

Definition has_short_path (sp : string) (r : urls.row) : bool :=
  String.eqb (urls.short_path r) sp.

Definition has_id (i : Z) (r : urls.row) : bool := urls.id r =? i.

Definition logs_of (i : Z) (l : access_logs.row) : bool :=
  access_logs.url_id l =? i.

(** [ORDER BY key DESC], as a stable insertion sort. *)
Fixpoint insert_desc {A} (key : A -> Z) (x : A) (l : list A) : list A :=
  match l with
  | [] => [x]
  | y :: l' =>
      if key y <=? key x then x :: y :: l' else y :: insert_desc key x l'
  end.

Definition order_by_desc {A} (key : A -> Z) (l : list A) : list A :=
  fold_right (insert_desc key) [] l.

(** [ORDER BY key DESC] as the engine answers it: rows with equal keys come
    in the order of the engine's tie key, which SQL does not fix. *)
Definition order_by_desc_ties {A} (key tie : A -> Z) (l : list A) : list A :=
  order_by_desc key (order_by_desc tie l).

(** [SELECT ... FROM urls WHERE short_path = %s] (with or without
    [FOR UPDATE]) and [fetchone()]. *)
Definition select_url_by_short_path (sp : string)
    : Statement (option urls.row) :=
  fun db => inr (find (has_short_path sp) (tbl_urls db), db).

Definition unique_violation : string :=
  "duplicate key value violates unique constraint urls_short_path_key".

Definition foreign_key_violation : string :=
  "violates foreign key constraint access_logs_url_id_fkey".

(** Modelled from the spec: the schema of the two tables is not in the source;
    the spec gives [urls(id, original_url, short_path UNIQUE, created_at,
    updated_at, expires_at)] and [access_logs(id, url_id REFERENCES urls,
    accessed_at, ip_address, user_agent)], with [created_at] set at creation.

    [INSERT INTO urls (original_url, short_path, expires_at) VALUES (...)
     RETURNING id, created_at] *)
Definition insert_url (id : Z) (now : datetime) (original_url sp : string)
    (expires_at : option datetime) : Statement (Z * datetime) :=
  fun db =>
    if existsb (has_short_path sp) (tbl_urls db) then inl unique_violation
    else inr ((id, now),
              mkDB (tbl_urls db ++
                      [urls.mk id original_url sp now now expires_at])
                   (tbl_access_logs db)).

(** [UPDATE urls SET original_url = %s, updated_at = NOW()
     WHERE short_path = %s RETURNING id, original_url] and [fetchone()]. *)
Definition set_original_url (original_url : string) (now : datetime)
    (sp : string) (r : urls.row) : urls.row :=
  if has_short_path sp r
  then urls.mk (urls.id r) original_url (urls.short_path r)
               (urls.created_at r) now (urls.expires_at r)
  else r.

Definition update_url_row (now : datetime) (original_url sp : string)
    : Statement (option urls.row) :=
  fun db =>
    let rows := map (set_original_url original_url now sp) (tbl_urls db) in
    inr (find (has_short_path sp) rows, mkDB rows (tbl_access_logs db)).

(** [INSERT INTO access_logs (url_id, accessed_at, ip_address, user_agent)
     VALUES (%s, NOW(), %s, %s) RETURNING id]; the reference
    [url_id REFERENCES urls] is the one of the spec's schema. *)
Definition insert_access_log (id : Z) (now : datetime) (url_id : Z)
    (ip ua : option string) : Statement Z :=
  fun db =>
    if existsb (has_id url_id) (tbl_urls db)
    then inr (id,
              mkDB (tbl_urls db)
                   (tbl_access_logs db ++ [access_logs.mk id url_id now ip ua]))
    else inl foreign_key_violation.

(** [SELECT COUNT( * ), COUNT(CASE WHEN accessed_at >= NOW() - INTERVAL
     '30 days' THEN 1 END) FROM access_logs WHERE url_id = %s] *)
Definition count_access_logs (now : datetime) (url_id : Z)
    : Statement (option (Z * Z)) :=
  fun db =>
    let mine := filter (logs_of url_id) (tbl_access_logs db) in
    let recent :=
      filter (fun l => now - days 30 <=? access_logs.accessed_at l) mine in
    inr (Some (Z.of_nat (List.length mine), Z.of_nat (List.length recent)), db).

(** [SELECT accessed_at, ip_address, user_agent FROM access_logs
     WHERE url_id = %s ORDER BY accessed_at DESC LIMIT 10] *)
Definition select_recent_access_logs (tie : access_logs.row -> Z) (url_id : Z)
    : Statement (list access_logs.row) :=
  fun db =>
    inr (firstn 10 (order_by_desc_ties access_logs.accessed_at tie
                      (filter (logs_of url_id) (tbl_access_logs db))), db).

(** [DELETE FROM access_logs WHERE url_id = %s] *)
Definition delete_access_logs (url_id : Z) : Statement unit :=
  fun db =>
    inr (tt, mkDB (tbl_urls db)
                  (filter (fun l => negb (logs_of url_id l))
                          (tbl_access_logs db))).

(** [DELETE FROM urls WHERE id = %s]; a row that access logs still reference
    cannot be deleted ([url_id REFERENCES urls] in the spec's schema). *)
Definition delete_url_row (url_id : Z) : Statement unit :=
  fun db =>
    if existsb (has_id url_id) (tbl_urls db)
       && existsb (logs_of url_id) (tbl_access_logs db)
    then inl foreign_key_violation
    else inr (tt, mkDB (filter (fun r => negb (has_id url_id r)) (tbl_urls db))
                       (tbl_access_logs db)).

(** [SELECT COUNT( * ) FROM urls] *)
Definition count_urls : Statement Z :=
  fun db => inr (Z.of_nat (List.length (tbl_urls db)), db).

(** [SELECT id, original_url, short_path, created_at, expires_at FROM urls
     ORDER BY created_at DESC LIMIT %s OFFSET %s] *)
Definition select_urls_page (tie : urls.row -> Z) (limit offset : Z)
    : Statement (list urls.row) :=
  fun db =>
    if limit <? 0 then inl "LIMIT must not be negative"
    else if offset <? 0 then inl "OFFSET must not be negative"
    else inr (firstn (Z.to_nat limit)
                (skipn (Z.to_nat offset)
                   (order_by_desc_ties urls.created_at tie (tbl_urls db))),
              db).

(** [INSERT INTO urls ...] through [cur.execute]: the statement draws its
    [id] from the sequence and its timestamps from [NOW()]. *)
Definition execute_insert_url (original_url sp : string)
    (expires_at : option datetime) : Handler (Z * datetime) :=
  storage_call ;;
  id <- nextval_urls_id ;;
  now <- sql_NOW ;;
  run_sql (insert_url id now original_url sp expires_at).

Definition execute_update_url (original_url sp : string)
    : Handler (option urls.row) :=
  storage_call ;;
  now <- sql_NOW ;;
  run_sql (update_url_row now original_url sp).

Definition execute_insert_access_log (url_id : Z) (ip ua : option string)
    : Handler Z :=
  storage_call ;;
  id <- nextval_access_logs_id ;;
  now <- sql_NOW ;;
  run_sql (insert_access_log id now url_id ip ua).

Definition execute_count_access_logs (url_id : Z) : Handler (option (Z * Z)) :=
  storage_call ;;
  now <- sql_NOW ;;
  run_sql (count_access_logs now url_id).

(** The order the engine gives to equal sort keys in this request. *)
Definition engine_urls_tie : Handler (urls.row -> Z) :=
  fun w => (Return (urls_tie w), w).

Definition engine_access_logs_tie : Handler (access_logs.row -> Z) :=
  fun w => (Return (access_logs_tie w), w).

Definition execute_select_recent_access_logs (url_id : Z)
    : Handler (list access_logs.row) :=
  storage_call ;;
  tie <- engine_access_logs_tie ;;
  run_sql (select_recent_access_logs tie url_id).

Definition execute_select_urls_page (limit offset : Z)
    : Handler (list urls.row) :=
  storage_call ;;
  tie <- engine_urls_tie ;;
  run_sql (select_urls_page tie limit offset).

(** ** Response bodies *)

Module CreateResponse.
Record t := mk {
  id : Z;
  short_url : string;
  original_url : string;
  created_at : datetime;
  expires_at : option datetime }.
End CreateResponse.

Module UpdateResponse.
Record t := mk {
  id : Z;
  short_url : string;
  original_url : string;
  updated_at : datetime }.
End UpdateResponse.

Module RedirectResponse.
Record t := mk { redirect_to : string }.
End RedirectResponse.

(** An entry of ["access_logs"] in the statistics; [accessed_at] stands for
    the text [log[0].isoformat() + "Z"] of that timestamp. *)
Module LogEntry.
Record t := mk {
  accessed_at : datetime;
  ip_address : option string;
  user_agent : option string }.
End LogEntry.

Module StatsResponse.
Record t := mk {
  short_url : string;
  original_url : string;
  total_accesses : Z;
  accesses_last_30_days : Z;
  access_logs : list LogEntry.t }.
End StatsResponse.

Module Item.
Record t := mk {
  id : Z;
  original_url : string;
  short_url : string;
  created_at : datetime;
  expires_at : option datetime;
  stats_url : string }.
End Item.

(** [class PaginatedURLResponse(BaseModel)] *)
Module PaginatedURLResponse.
Record t := mk {
  total_items : Z;
  page : Z;
  per_page : Z;
  items : list Item.t }.
End PaginatedURLResponse.

(** ** The handlers *)

(** [s.rstrip(c)] for a single character [c]. *)
Fixpoint rstrip (c : ascii) (s : string) : string :=
  match s with
  | EmptyString => EmptyString
  | String a rest =>
      match rstrip c rest with
      | EmptyString => if Ascii.eqb a c then EmptyString else String a EmptyString
      | r => String a r
      end
  end.

(** [str(request.base_url).rstrip('/')] *)
Definition base_url_of (request : Request.t) : string :=
  rstrip "/"%char (Request.base_url request).

(** Truth value of a Python string. *)
Definition truthy (s : string) : bool :=
  match s with EmptyString => false | _ => true end.

(** The cleanup of every handler: [if conn: conn.close()]. *)
Definition close_if_bound : Handler unit :=
  b <- conn_bound ;; when b conn_close.

(** [short_path = data.short_path or generate_short_path()] *)
Definition resolve_short_path (data : URLCreate.t) : Handler string :=
  match URLCreate.short_path data with
  | Some s => if truthy s then ret s else generate_short_path
  | None => generate_short_path
  end.

(** [expires_at = None] and, when [expires_in_days is not None],
    [expires_at = datetime.now() + timedelta(days=data.expires_in_days)]. *)
Definition compute_expires_at (expires_in_days : option float_days)
    : Handler (option datetime) :=
  match expires_in_days with
  | Some x =>
      now <- datetime_now ;;
      delta <- timedelta_days x ;;
      expires_at <- datetime_add now delta ;;
      ret (Some expires_at)
  | None => ret None
  end.

(** [POST /api/urls] *)
Definition create_url (data : URLCreate.t) (request : Request.t)
    : Handler CreateResponse.t :=
  let base_url := base_url_of request in
  short_path <- resolve_short_path data ;;
  expires_at <- compute_expires_at (URLCreate.expires_in_days data) ;;
  conn_unset ;;
  try_finally
    (try_except
       (get_db_connection ;;
        taken <- execute (select_url_by_short_path short_path) ;;
        match taken with
        | Some _ =>
            raise (HTTPException 409
                     (Some ("O caminho '" ++ short_path ++ "' já está em uso")%string))
        | None =>
            inserted <- execute_insert_url (URLCreate.original_url data)
                          short_path expires_at ;;
            conn_commit ;;
            ret (CreateResponse.mk (fst inserted)
                   (base_url ++ "/" ++ short_path)%string
                   (URLCreate.original_url data)
                   (snd inserted)
                   expires_at)
        end)
       (except_psycopg2_Error (fun e =>
          raise (HTTPException 500
                   (Some ("Erro no banco de dados: " ++ e)%string)))))
    close_if_bound.

(** [PUT /api/urls/{short_path}] *)
Definition update_url (short_path : string) (data : URLUpdate.t)
    (request : Request.t) : Handler UpdateResponse.t :=
  conn_unset ;;
  let base_url := base_url_of request in
  try_finally
    (get_db_connection ;;
     result <- execute_update_url (URLUpdate.original_url data) short_path ;;
     match result with
     | None => raise (HTTPException 404 (Some "URL não encontrada"))
     | Some r =>
         conn_commit ;;
         now <- datetime_now ;;
         ret (UpdateResponse.mk (urls.id r)
                (base_url ++ "/" ++ short_path)%string
                (urls.original_url r)
                now)
     end)
    close_if_bound.

(** [request.client.host] *)
Definition client_host (request : Request.t) : Handler string :=
  match Request.client request with
  | Some host => ret host
  | None => raise (AttributeError "'NoneType' object has no attribute 'host'")
  end.

(** [expires_at and expires_at < datetime.now()] *)
Definition is_expired (expires_at : option datetime) : Handler bool :=
  match expires_at with
  | Some t => now <- datetime_now ;; ret (t <? now)
  | None => ret false
  end.

(** [GET /{short_path}] *)
Definition redirect_url (short_path : string) (request : Request.t)
    : Handler RedirectResponse.t :=
  conn_unset ;;
  try_finally
    (try_except
       (get_db_connection ;;
        url_data <- execute (select_url_by_short_path short_path) ;;
        match url_data with
        | None => raise (HTTPException 404 (Some "URL não encontrada"))
        | Some r =>
            expired <- is_expired (urls.expires_at r) ;;
            if expired
            then raise (HTTPException 410 (Some "URL expirada"))
            else
              host <- client_host request ;;
              log_id <- execute_insert_access_log (urls.id r) (Some host)
                          (Request.user_agent request) ;;
              conn_commit ;;
              ret (RedirectResponse.mk (urls.original_url r))
        end)
       (except_Exception (fun e =>
          b <- conn_bound ;;
          when b conn_rollback ;;
          raise (HTTPException 500 (Some "Erro interno ao processar o acesso")))))
    close_if_bound.

Definition log_entry (l : access_logs.row) : LogEntry.t :=
  LogEntry.mk (access_logs.accessed_at l) (access_logs.ip_address l)
    (access_logs.user_agent l).

(** [GET /api/urls/{short_path}/stats] *)
Definition get_stats (short_path : string) (request : Request.t)
    : Handler StatsResponse.t :=
  conn_unset ;;
  try_finally
    (try_except
       (get_db_connection ;;
        let base_url := base_url_of request in
        url_data <- execute (select_url_by_short_path short_path) ;;
        match url_data with
        | None => raise (HTTPException 404 (Some "URL não encontrada"))
        | Some r =>
            counts <- execute_count_access_logs (urls.id r) ;;
            let (total_accesses, accesses_last_30_days) :=
              match counts with Some c => c | None => (0, 0) end in
            logs <- execute_select_recent_access_logs (urls.id r) ;;
            ret (StatsResponse.mk
                   (base_url ++ "/" ++ short_path)%string
                   (urls.original_url r)
                   total_accesses
                   accesses_last_30_days
                   (map log_entry logs))
        end)
       (except_psycopg2_Error (fun e =>
          raise (HTTPException 500
                   (Some ("Erro no banco de dados: " ++ e)%string)))))
    close_if_bound.

(** [DELETE /api/urls/{short_path}] *)
Definition delete_url (short_path : string) : Handler unit :=
  conn_unset ;;
  try_finally
    (try_except
       (get_db_connection ;;
        url_data <- execute (select_url_by_short_path short_path) ;;
        match url_data with
        | None => raise (HTTPException 404 (Some "URL não encontrada"))
        | Some r =>
            execute (delete_access_logs (urls.id r)) ;;
            execute (delete_url_row (urls.id r)) ;;
            conn_commit ;;
            ret tt
        end)
       (except_psycopg2_Error (fun e =>
          conn_rollback ;;
          raise (HTTPException 500
                   (Some ("Erro no banco de dados: " ++ e)%string)))))
    close_if_bound.

Definition item_of (base_url : string) (url : urls.row) : Item.t :=
  Item.mk (urls.id url)
    (urls.original_url url)
    (base_url ++ "/" ++ urls.short_path url)%string
    (urls.created_at url)
    (urls.expires_at url)
    (base_url ++ "/api/urls/" ++ urls.short_path url ++ "/stats")%string.

(** [GET /api/urls?page=&per_page=] *)
Definition list_urls (request : Request.t) (page per_page : Z)
    : Handler PaginatedURLResponse.t :=
  conn_unset ;;
  try_finally
    (try_except
       (get_db_connection ;;
        let base_url := base_url_of request in
        total_items <- execute count_urls ;;
        let offset := (page - 1) * per_page in
        rows <- execute_select_urls_page per_page offset ;;
        ret (PaginatedURLResponse.mk total_items page per_page
               (map (item_of base_url) rows)))
       (except_psycopg2_Error (fun e => raise (HTTPException 500 None))))
    close_if_bound.

(** ** Worlds in which the storage layer behaves *)

Definition is_quiet (e : Event) : bool :=
  match e with Quiet => true | _ => false end.

(** No driver failure and no concurrent transaction for the rest of the
    request. *)
Definition quiet (w : World) : Prop := forallb is_quiet (schedule w) = true.

(** What a concurrent transaction makes of the tables at one event. *)
Definition env (e : Event) (db : DB) : DB :=
  match e with Concurrent other => other db | _ => db end.

Definition no_fault (e : Event) : bool :=
  match e with DriverFails _ => false | _ => true end.

(** [needle in hay] for Python strings. *)
Fixpoint contains (needle hay : string) : bool :=
  String.prefix needle hay
  || match hay with
     | EmptyString => false
     | String _ rest => contains needle rest
     end.

(** The detail of the HTTP error response quotes the text [pgerror]. *)
Definition leaks {A} (pgerror : string) (o : Outcome A) : bool :=
  match o with
  | Raise (HTTPException _ (Some detail)) => contains pgerror detail
  | _ => false
  end.

(** The status code a handler's outcome is answered with, when the handler
    itself decides it. *)
Definition status_of {A} (o : Outcome A) : option Z :=
  match o with
  | Raise (HTTPException code _) => Some code
  | _ => None
  end.

(** Modelled from the spec: [short_path UNIQUE] of the schema, which the
    source does not contain. *)
Definition short_path_unique (db : DB) : Prop :=
  NoDup (map urls.short_path (tbl_urls db)).

(** A lowercase letter or a digit. *)
Definition is_lower_alnum (c : ascii) : bool :=
  let n := nat_of_ascii c in
  ((97 <=? n) && (n <=? 122) || (48 <=? n) && (n <=? 57))%nat.

Definition lower_alnum_token (s : string) : Prop :=
  String.length s = 6%nat /\
  forallb is_lower_alnum (list_ascii_of_string s) = true.

(** ** Accounting for the driver's errors *)

(** [m] accounts for the errors of the driver: a run of [m] that ends in a
    [psycopg2.Error] has added exactly that error to the history, and any
    other run has added none. *)
Definition tracked {A} (m : Handler A) : Prop :=
  forall w,
    match m w with
    | (Raise (psycopg2_Error e), w') => driver_errors w' = e :: driver_errors w
    | (_, w') => driver_errors w' = driver_errors w
    end.

(** The driver raised an error with text [pgerror] during the run of [m]
    from [w]. *)
Definition failed_with {A} (pgerror : string) (m : Handler A) (w : World)
    : Prop :=
  driver_errors (snd (m w)) = pgerror :: driver_errors w.

Definition is_driver_error (e : Exn) : bool :=
  match e with psycopg2_Error _ => true | _ => false end.

(** ** Pagination *)

(** [a] comes before [b] in [ORDER BY key DESC]. *)
Definition desc {A} (key : A -> Z) (a b : A) : Prop := key b <= key a.

(** The items a client receives for page [page] at a fixed [per_page]. *)
Definition page_items (request : Request.t) (per_page : Z) (w : World)
    (page : nat) : list Item.t :=
  match fst (list_urls request (Z.of_nat page) per_page w) with
  | Return resp => PaginatedURLResponse.items resp
  | Raise _ => []
  end.

(** [ceil(total / per_page)] *)
Definition pages_needed (total per_page : Z) : nat :=
  Z.to_nat ((total + per_page - 1) / per_page).

(** ** Consistency of the store *)





(** The handler returned, or refused the request with 404 or 409. *)
Definition ok_or_refused {A} (o : Outcome A) : bool :=
  match o with
  | Return _ => true
  | Raise (HTTPException code _) => (code =? 404) || (code =? 409)
  | Raise _ => false
  end.

(** ** Sample data, used to run the statements below on concrete requests *)

Definition sample_rng : nat -> nat := fun n => (7 * n + 3)%nat.

Definition sample_request : Request.t :=
  Request.mk "http://testserver/" (Some "127.0.0.1") (Some "curl/8.5.0").

(** Two stored links, the second one expired at the sample clock, and one
    recorded access of each. *)
Definition sample_db : DB :=
  mkDB [ urls.mk 1 "https://a.com" "abc123" 900 900 None;
         urls.mk 2 "https://old.example" "old001" 400 400 (Some 500) ]
       [ access_logs.mk 1 1 950 (Some "10.0.0.1") None;
         access_logs.mk 2 2 450 (Some "10.0.0.2") (Some "Mozilla/5.0") ].

(** The insert of another Create of the same path, committing while this
    request is between its check and its own insert. *)
Definition racing_create (sp : string) : DB -> DB :=
  fun db =>
    match insert_url 7 1004 "https://a.com" sp None db with
    | inr (_, db') => db'
    | inl _ => db
    end.

(** Two stored links created at the same instant. *)
Definition tied_db : DB :=
  mkDB [ urls.mk 1 "https://a.com" "aaa111" 900 900 None;
         urls.mk 2 "https://b.com" "bbb222" 900 900 None ]
       [].

(** A quiet world over the tables [db] whose engine returns rows with equal
    sort keys by descending [tie]. *)
Definition world_with_tie (db : DB) (tie : urls.row -> Z) : World :=
  mkWorld db None 3 3 [] [] 1000 1005 sample_rng 0 tie (fun _ => 0).

(** A world over the tables [db] in which the storage layer follows
    [sched]; the handler's clock reads 1000 and the database's 1005. *)
Definition world_of (db : DB) (sched : list Event) : World :=
  mkWorld db None 3 3 sched [] 1000 1005 sample_rng 0
          (fun _ => 0) (fun _ => 0).

(** ** Proof tools *)

(** Symbolic execution of a handler on a world given by its fields: the
    monad, the driver calls and the statements are unfolded, the searches in
    the tables are left as they are. *)
Ltac run :=
  lazy beta iota zeta delta
    [create_url update_url redirect_url get_stats delete_url list_urls
     close_if_bound execute_insert_url execute_update_url
     execute_insert_access_log execute_count_access_logs
     execute_select_recent_access_logs execute_select_urls_page
     engine_urls_tie engine_access_logs_tie execute
     get_db_connection conn_commit conn_rollback conn_close conn_bound
     conn_unset storage_call next_event driver_raise run_sql
     nextval_urls_id nextval_access_logs_id sql_NOW datetime_now
     is_expired client_host when try_finally try_except
     except_psycopg2_Error except_Exception bind ret raise
     with_committed with_session with_schedule with_driver_errors
     with_urls_id_seq with_access_logs_id_seq with_rng_pos
     committed session urls_id_seq access_logs_id_seq schedule
     driver_errors py_now db_now rng rng_pos urls_tie access_logs_tie
     select_url_by_short_path insert_url update_url_row insert_access_log
     count_access_logs select_recent_access_logs delete_access_logs
     delete_url_row count_urls select_urls_page
     fst snd hd tl option_map env andb];
  cbn [tbl_urls tbl_access_logs].

Ltac run_in H :=
  lazy beta iota zeta delta
    [create_url update_url redirect_url get_stats delete_url list_urls
     close_if_bound execute_insert_url execute_update_url
     execute_insert_access_log execute_count_access_logs
     execute_select_recent_access_logs execute_select_urls_page
     engine_urls_tie engine_access_logs_tie execute
     get_db_connection conn_commit conn_rollback conn_close conn_bound
     conn_unset storage_call next_event driver_raise run_sql
     nextval_urls_id nextval_access_logs_id sql_NOW datetime_now
     is_expired client_host when try_finally try_except
     except_psycopg2_Error except_Exception bind ret raise
     with_committed with_session with_schedule with_driver_errors
     with_urls_id_seq with_access_logs_id_seq with_rng_pos
     committed session urls_id_seq access_logs_id_seq schedule
     driver_errors py_now db_now rng rng_pos urls_tie access_logs_tie
     select_url_by_short_path insert_url update_url_row insert_access_log
     count_access_logs select_recent_access_logs delete_access_logs
     delete_url_row count_urls select_urls_page
     fst snd hd tl option_map env andb] in H;
  cbn [tbl_urls tbl_access_logs] in H.

Ltac world_fields_in_all :=
  cbn [committed session urls_id_seq access_logs_id_seq schedule
       driver_errors py_now db_now rng rng_pos urls_tie access_logs_tie] in *.

Ltac open_world w :=
  let c := fresh "c" in let s := fresh "s" in let u := fresh "u" in
  let a := fresh "a" in let sch := fresh "sch" in let de := fresh "de" in
  let py := fresh "py" in let dbn := fresh "dbn" in let g := fresh "g" in
  let gp := fresh "gp" in
  let ut := fresh "ut" in let lt := fresh "lt" in
  destruct w as [c s u a sch de py dbn g gp ut lt]; unfold quiet in *;
  world_fields_in_all.

(** Case analysis on the searches a run is stuck on. *)
Ltac split_lookups :=
  repeat match goal with
         | |- context [find ?f ?l] =>
             let E := fresh "Efind" in destruct (find f l) eqn:E; run
         | |- context [existsb ?f ?l] =>
             let E := fresh "Eex" in destruct (existsb f l) eqn:E; run
         end.

(** Case analysis on the next [n] events of a schedule [sch] that is quiet by
    [Hq]; every case is handed to [tac]. *)
Ltac quiet_cases Hq sch n tac :=
  lazymatch n with
  | O => tac
  | S ?m =>
      destruct sch as [|[| |] sch];
      [ tac
      | simpl in Hq; quiet_cases Hq sch m tac
      | simpl in Hq; discriminate Hq
      | simpl in Hq; discriminate Hq ]
  end.

Lemma find_has_short_path sp rows r :
  find (has_short_path sp) rows = Some r ->
  In r rows /\ urls.short_path r = sp.
Proof.
  intros H. apply find_some in H. destruct H as [Hin Heq].
  split; [exact Hin|]. now apply String.eqb_eq.
Qed.

Lemma find_has_short_path_None sp rows :
  find (has_short_path sp) rows = None <->
  (forall r, In r rows -> urls.short_path r <> sp).
Proof.
  split.
  - intros H r Hin Heq.
    apply (find_none _ _ H) in Hin. unfold has_short_path in Hin.
    rewrite Heq, String.eqb_refl in Hin. discriminate.
  - intros H. destruct (find (has_short_path sp) rows) as [r|] eqn:E; [|reflexivity].
    apply find_has_short_path in E. destruct E as [Hin Heq].
    now apply H in Hin.
Qed.

Lemma existsb_has_short_path sp rows :
  existsb (has_short_path sp) rows = true <->
  exists r, In r rows /\ urls.short_path r = sp.
Proof.
  rewrite existsb_exists. split; intros [r [Hin H]]; exists r; split; auto.
  - now apply String.eqb_eq.
  - now apply String.eqb_eq.
Qed.

(** Two rows of a table with unique [short_path] that share it are one row. *)
Lemma short_path_unique_inj rows r1 r2 :
  NoDup (map urls.short_path rows) ->
  In r1 rows -> In r2 rows -> urls.short_path r1 = urls.short_path r2 ->
  r1 = r2.
Proof.
  induction rows as [|x rows IH]; simpl; intros Hnd H1 H2 Heq; [contradiction|].
  inversion Hnd as [|? ? Hnotin Hnd']; subst.
  destruct H1 as [->|H1], H2 as [->|H2]; auto.
  - exfalso. apply Hnotin. rewrite Heq. now apply in_map.
  - exfalso. apply Hnotin. rewrite <- Heq. now apply in_map.
Qed.

(** ** The token generator *)

Lemma with_rng_pos_same w : with_rng_pos (rng_pos w) w = w.
Proof. now destruct w. Qed.

Lemma with_rng_pos_twice n m w :
  with_rng_pos n (with_rng_pos m w) = with_rng_pos n w.
Proof. reflexivity. Qed.

Lemma get_in_list n s c :
  String.get n s = Some c -> In c (list_ascii_of_string s).
Proof.
  revert n. induction s as [|a s IH]; intros n H; simpl in *; [discriminate|].
  destruct n as [|n].
  - left. congruence.
  - right. eauto.
Qed.

Lemma get_is_Some n s :
  (n < String.length s)%nat -> exists c, String.get n s = Some c.
Proof.
  revert n. induction s as [|a s IH]; intros n H; simpl in *; [lia|].
  destruct n as [|n]; [eauto|]. apply IH. lia.
Qed.

(** A choice among a non-empty alphabet returns one of its characters and
    only advances the random source. *)
Lemma random_choice_spec chars w :
  (0 < String.length chars)%nat ->
  exists c, random_choice chars w = (Return c, with_rng_pos (S (rng_pos w)) w)
            /\ In c (list_ascii_of_string chars).
Proof.
  intros Hlen. unfold random_choice.
  destruct (get_is_Some (Nat.modulo (rng w (rng_pos w)) (String.length chars)) chars)
    as [c Hc].
  - apply Nat.mod_upper_bound. lia.
  - exists c. rewrite Hc. split; [reflexivity|]. eapply get_in_list; eauto.
Qed.

Lemma join_choices_spec chars n :
  (0 < String.length chars)%nat ->
  forall w, exists s,
    join_choices chars n w = (Return s, with_rng_pos (rng_pos w + n) w)
    /\ String.length s = n
    /\ Forall (fun c => In c (list_ascii_of_string chars)) (list_ascii_of_string s).
Proof.
  intros Hlen. induction n as [|n IH]; intros w; simpl.
  - exists EmptyString. unfold ret. rewrite Nat.add_0_r, with_rng_pos_same. auto.
  - destruct (random_choice_spec chars w Hlen) as [c [Hc Hin]].
    destruct (IH (with_rng_pos (S (rng_pos w)) w)) as [s [Hs [Hl Hall]]].
    exists (String c s). unfold bind at 1. rewrite Hc.
    unfold bind at 1. rewrite Hs. unfold ret. simpl.
    rewrite with_rng_pos_twice.
    replace (S (rng_pos w + n)) with (rng_pos w + S n)%nat by lia.
    repeat split; auto.
Qed.

Lemma chars_lower_alnum :
  forallb is_lower_alnum
    (list_ascii_of_string (ascii_lowercase ++ digits)%string) = true.
Proof. vm_compute. reflexivity. Qed.

(** [generate_short_path] always returns, its result has six characters,
    each a lowercase letter or a digit, and it touches nothing but the random
    source. *)
Lemma generate_short_path_spec w :
  exists s, generate_short_path w = (Return s, with_rng_pos (rng_pos w + 6) w)
            /\ lower_alnum_token s.
Proof.
  unfold generate_short_path.
  destruct (join_choices_spec (ascii_lowercase ++ digits)%string 6) with (w := w)
    as [s [Hs [Hl Hall]]].
  - vm_compute. lia.
  - exists s. split; [exact Hs|]. split; [exact Hl|].
    apply forallb_forall. intros c Hc.
    rewrite Forall_forall in Hall. specialize (Hall c Hc).
    pose proof chars_lower_alnum as Hok. rewrite forallb_forall in Hok. auto.
Qed.

(** Resolving the path of a Create always returns and touches nothing but
    the random source. *)
Lemma resolve_short_path_frame data w :
  exists sp n, resolve_short_path data w = (Return sp, with_rng_pos n w).
Proof.
  unfold resolve_short_path.
  destruct (generate_short_path_spec w) as [s [Hs _]].
  destruct (URLCreate.short_path data) as [p|].
  - destruct (truthy p).
    + exists p, (rng_pos w). unfold ret. now rewrite with_rng_pos_same.
    + eauto.
  - eauto.
Qed.

(** ** Create *)

Lemma create_url_after_resolve data w sp w1 :
  resolve_short_path data w = (Return sp, w1) ->
  exists n, w1 = with_rng_pos n w.
Proof.
  intros H. destruct (resolve_short_path_frame data w) as [sp' [n H']].
  rewrite H in H'. exists n. congruence.
Qed.

Lemma bind_Return {A B} (m : Handler A) (k : A -> Handler B) w a w' :
  m w = (Return a, w') -> bind m k w = k a w'.
Proof. intros H. unfold bind. now rewrite H. Qed.

Lemma bind_Raise {A B} (m : Handler A) (k : A -> Handler B) w e w' :
  m w = (Raise e, w') -> bind m k w = (Raise e, w').
Proof. intros H. unfold bind. now rewrite H. Qed.

Lemma bind_Return_inv {A B} (m : Handler A) (k : A -> Handler B) w b w' :
  bind m k w = (Return b, w') ->
  exists a w1, m w = (Return a, w1) /\ k a w1 = (Return b, w').
Proof.
  unfold bind. destruct (m w) as [[a|e] w1]; intros H; [eauto | discriminate].
Qed.

Lemma try_except_Return_inv {A} (body : Handler A) handler w a w' :
  try_except body handler w = (Return a, w') ->
  body w = (Return a, w')
  \/ exists e w1 h, body w = (Raise e, w1) /\ handler e = Some h
                    /\ h w1 = (Return a, w').
Proof.
  unfold try_except. destruct (body w) as [[x|e] w1]; intros H.
  - left. exact H.
  - right. destruct (handler e) as [h|] eqn:E; [|discriminate].
    exists e, w1, h. auto.
Qed.

Lemma try_finally_Return_inv {A} (body : Handler A) cleanup w a w' :
  try_finally body cleanup w = (Return a, w') ->
  exists w1, body w = (Return a, w1) /\ cleanup w1 = (Return tt, w').
Proof.
  unfold try_finally. destruct (body w) as [o w1].
  destruct (cleanup w1) as [[[]|e] w2] eqn:E; intros H; [|discriminate].
  exists w1. inversion H; subst. split; [reflexivity | exact E].
Qed.

(** The expiry of a Create is computed from the handler's clock alone, and
    the computation changes nothing; when it fails, it is not with an error
    of the driver. *)
Lemma compute_expires_at_cases x w :
  (exists expires_at, compute_expires_at x w = (Return expires_at, w))
  \/ (exists e, compute_expires_at x w = (Raise e, w)
                /\ is_driver_error e = false).
Proof.
  unfold compute_expires_at, timedelta_days, datetime_add, datetime_now,
    bind, ret, raise.
  destruct x as [[us| |]|]; simpl;
    repeat match goal with
           | |- context [if ?b then _ else _] => destruct b; simpl
           end; eauto.
Qed.

Lemma compute_expires_at_clock x w w' :
  py_now w' = py_now w ->
  fst (compute_expires_at x w') = fst (compute_expires_at x w).
Proof.
  intros Hpy.
  unfold compute_expires_at, timedelta_days, datetime_add, datetime_now,
    bind, ret, raise.
  destruct x as [[us| |]|]; simpl; try reflexivity.
  rewrite Hpy.
  repeat match goal with
         | |- context [if ?b then _ else _] => destruct b; simpl
         end; reflexivity.
Qed.

Lemma compute_expires_at_after x w expires_at n :
  fst (compute_expires_at x w) = Return expires_at ->
  compute_expires_at x (with_rng_pos n w) =
    (Return expires_at, with_rng_pos n w).
Proof.
  intros H.
  rewrite <- (compute_expires_at_clock x w (with_rng_pos n w) eq_refl) in H.
  destruct (compute_expires_at_cases x (with_rng_pos n w))
    as [[y Hy]|[e [He _]]].
  - rewrite Hy in H |- *. simpl in H. inversion H. reflexivity.
  - rewrite He in H. discriminate H.
Qed.

(** The expiry computed from a finite [expires_in_days], when it is
    computed, is the clock plus that time. *)
Lemma compute_expires_at_finite d w expires_at :
  fst (compute_expires_at (Some (finite_days d)) w) = Return expires_at ->
  expires_at = Some (py_now w + d).
Proof.
  unfold compute_expires_at, timedelta_days, datetime_add, datetime_now,
    bind, ret, raise. simpl.
  repeat match goal with
         | |- context [if ?b then _ else _] => destruct b; simpl
         end; intros H; try discriminate H. inversion H. reflexivity.
Qed.

Ltac start_create Hres w1 :=
  let n := fresh "n" in
  let E := fresh "E" in
  destruct (create_url_after_resolve _ _ _ _ Hres) as [n E];
  unfold create_url; rewrite (bind_Return _ _ _ _ _ Hres); subst w1.

(** The same, for a Create whose expiry is computed by [Hexp]. *)
Ltac start_create_with Hres Hexp w1 :=
  let n := fresh "n" in
  let E := fresh "E" in
  destruct (create_url_after_resolve _ _ _ _ Hres) as [n E];
  unfold create_url; rewrite (bind_Return _ _ _ _ _ Hres); subst w1;
  rewrite (bind_Return _ _ _ _ _ (compute_expires_at_after _ _ _ n Hexp)).

(** In a quiet world a Create whose expiry is computed and whose path is free
    inserts exactly one row and answers with it. *)
Lemma create_url_quiet_free data req w sp w1 expires_at :
  quiet w ->
  resolve_short_path data w = (Return sp, w1) ->
  fst (compute_expires_at (URLCreate.expires_in_days data) w) =
    Return expires_at ->
  find (has_short_path sp) (tbl_urls (committed w)) = None ->
  fst (create_url data req w) =
    Return (CreateResponse.mk (urls_id_seq w)
              (base_url_of req ++ "/" ++ sp)%string
              (URLCreate.original_url data) (db_now w) expires_at)
  /\ committed (snd (create_url data req w)) =
       mkDB (tbl_urls (committed w) ++
               [urls.mk (urls_id_seq w) (URLCreate.original_url data) sp
                        (db_now w) (db_now w) expires_at])
            (tbl_access_logs (committed w)).
Proof.
  intros Hq Hres Hexp Hfree. start_create_with Hres Hexp w1.
  assert (Hex : existsb (has_short_path sp) (tbl_urls (committed w)) = false).
  { destruct (existsb _ _) eqn:E; [|reflexivity].
    apply existsb_has_short_path in E. destruct E as [r [Hin Hr]].
    rewrite find_has_short_path_None in Hfree. now apply Hfree in Hin. }
  clear Hres Hexp. open_world w.
  quiet_cases Hq sch 4%nat
    ltac:(run; rewrite Hfree; run; rewrite Hex; run; auto).
Qed.

Ltac split_lookups_in H :=
  repeat match type of H with
         | context [find ?f ?l] =>
             let E := fresh "Efind" in destruct (find f l) eqn:E; simpl in H
         | context [existsb ?f ?l] =>
             let E := fresh "Eex" in destruct (existsb f l) eqn:E; simpl in H
         end.

(** C6 (amended to what the handler does): a Create whose expiry, if any,
    is computed (line 51 does not raise) and whose resolved [short_path] is
    already stored fails with 409 Conflict, and the stored tables are left as
    they were: no row is overwritten or modified. *)
Theorem create_url_conflict data req w sp w1 expires_at :
  quiet w ->
  resolve_short_path data w = (Return sp, w1) ->
  fst (compute_expires_at (URLCreate.expires_in_days data) w) =
    Return expires_at ->
  (exists r, In r (tbl_urls (committed w)) /\ urls.short_path r = sp) ->
  fst (create_url data req w) =
    Raise (HTTPException 409
             (Some ("O caminho '" ++ sp ++ "' já está em uso")%string))
  /\ committed (snd (create_url data req w)) = committed w.
Proof.
  intros Hq Hres Hexp [r [Hin Hr]]. start_create_with Hres Hexp w1.
  destruct (find (has_short_path sp) (tbl_urls (committed w))) as [r'|] eqn:Hfind.
  2:{ rewrite find_has_short_path_None in Hfind. now apply Hfind in Hin. }
  clear Hres Hexp. open_world w.
  quiet_cases Hq sch 2%nat ltac:(run; rewrite Hfind; run; auto).
Qed.

Lemma create_url_conflict_witness :
  fst (create_url (URLCreate.mk "https://b.com" (Some "abc123")
                     (Some (finite_days (days 7))))
         sample_request (world_of sample_db [])) =
    Raise (HTTPException 409 (Some "O caminho 'abc123' já está em uso"))
  /\ committed (snd (create_url (URLCreate.mk "https://b.com" (Some "abc123")
                                   (Some (finite_days (days 7))))
                       sample_request (world_of sample_db []))) = sample_db.
Proof.
  apply (create_url_conflict _ _ (world_of sample_db []) "abc123"
           (world_of sample_db []) (Some (1000 + days 7))).
  - reflexivity.
  - reflexivity.
  - reflexivity.
  - eexists. split; [left; reflexivity | reflexivity].
Defined.

(** C6, refuted as stated: a Create of a stored path whose
    [expires_in_days] carries the expiry past [datetime.max] raises
    [OverflowError] at line 51, before the [try] and before any lookup; the
    handler raises no 409. *)
Lemma create_url_conflict_counterexample :
  let data := URLCreate.mk "https://b.com" (Some "abc123")
                (Some (finite_days (days 3000000))) in
  let w := world_of sample_db [] in
  (exists r, In r (tbl_urls (committed w)) /\ urls.short_path r = "abc123")
  /\ fst (create_url data sample_request w) =
       Raise (OverflowError "date value out of range")
  /\ status_of (fst (create_url data sample_request w)) <> Some 409.
Proof.
  split.
  - eexists. split; [left; reflexivity | reflexivity].
  - vm_compute. split; [reflexivity | discriminate].
Qed.

(** C9: a Create without [short_path] is assigned a token of exactly six
    characters, each a lowercase letter or a digit; the response of a
    successful Create carries that token, and its [expires_at] is null when
    [expires_in_days] is omitted as well.  When moreover the token is free
    and the storage layer behaves, such a Create succeeds and stores the row
    with that token and a null [expires_at]. *)
Theorem create_url_generated_token data req w :
  URLCreate.short_path data = None ->
  exists token w1,
    resolve_short_path data w = (Return token, w1)
    /\ lower_alnum_token token
    /\ (forall resp w',
          create_url data req w = (Return resp, w') ->
          CreateResponse.short_url resp = (base_url_of req ++ "/" ++ token)%string
          /\ (URLCreate.expires_in_days data = None ->
              CreateResponse.expires_at resp = None))
    /\ (quiet w ->
        find (has_short_path token) (tbl_urls (committed w)) = None ->
        URLCreate.expires_in_days data = None ->
        exists resp,
          fst (create_url data req w) = Return resp
          /\ CreateResponse.expires_at resp = None
          /\ tbl_urls (committed (snd (create_url data req w))) =
               tbl_urls (committed w) ++
                 [urls.mk (CreateResponse.id resp) (URLCreate.original_url data)
                    token (db_now w) (db_now w) None]).
Proof.
  intros Hnone.
  assert (Hres : exists token, resolve_short_path data w =
                                 (Return token, with_rng_pos (rng_pos w + 6) w)
                               /\ lower_alnum_token token).
  { unfold resolve_short_path. rewrite Hnone. apply generate_short_path_spec. }
  destruct Hres as [token [Hres Htok]].
  exists token, (with_rng_pos (rng_pos w + 6) w).
  split; [exact Hres|]. split; [exact Htok|]. split.
  - intros resp w' Hrun. unfold create_url in Hrun.
    rewrite (bind_Return _ _ _ _ _ Hres) in Hrun. clear Hres.
    apply bind_Return_inv in Hrun. destruct Hrun as (exp & w2 & Hexp & Hrun).
    apply bind_Return_inv in Hrun. destruct Hrun as (? & w3 & _ & Hrun).
    apply try_finally_Return_inv in Hrun. destruct Hrun as (w4 & Hrun & _).
    apply try_except_Return_inv in Hrun.
    destruct Hrun as [Hrun | (e & w5 & h & _ & Hh & Hrun)].
    2:{ destruct e; try discriminate Hh. inversion Hh; subst h. discriminate Hrun. }
    apply bind_Return_inv in Hrun. destruct Hrun as (? & w5 & _ & Hrun).
    apply bind_Return_inv in Hrun. destruct Hrun as (taken & w6 & _ & Hrun).
    destruct taken as [r|]; [discriminate Hrun|].
    apply bind_Return_inv in Hrun. destruct Hrun as (inserted & w7 & _ & Hrun).
    apply bind_Return_inv in Hrun. destruct Hrun as (? & w8 & _ & Hrun).
    inversion Hrun; subst. simpl. split; [reflexivity|].
    intros Hnoexp. rewrite Hnoexp in Hexp. inversion Hexp. reflexivity.
  - intros Hq Hfree Hnoexp.
    assert (Hexp : fst (compute_expires_at (URLCreate.expires_in_days data) w)
                   = Return None) by (rewrite Hnoexp; reflexivity).
    destruct (create_url_quiet_free data req w token _ None Hq Hres Hexp Hfree)
      as [Hout Hdb].
    eexists. split; [exact Hout|]. split; [reflexivity|].
    rewrite Hdb. reflexivity.
Qed.

Lemma create_url_generated_token_witness :
  exists token w1,
    resolve_short_path (URLCreate.mk "https://example.com" None None)
      (world_of sample_db []) = (Return token, w1)
    /\ lower_alnum_token token
    /\ (forall resp w',
          create_url (URLCreate.mk "https://example.com" None None) sample_request
            (world_of sample_db []) = (Return resp, w') ->
          CreateResponse.short_url resp =
            (base_url_of sample_request ++ "/" ++ token)%string
          /\ (@None float_days = None -> CreateResponse.expires_at resp = None))
    /\ (quiet (world_of sample_db []) ->
        find (has_short_path token) (tbl_urls sample_db) = None ->
        @None float_days = None ->
        exists resp,
          fst (create_url (URLCreate.mk "https://example.com" None None)
                 sample_request (world_of sample_db [])) = Return resp
          /\ CreateResponse.expires_at resp = None
          /\ tbl_urls (committed (snd (create_url
                (URLCreate.mk "https://example.com" None None)
                sample_request (world_of sample_db [])))) =
               tbl_urls sample_db ++
                 [urls.mk (CreateResponse.id resp) "https://example.com"
                    token 1005 1005 None]).
Proof.
  apply (create_url_generated_token
           (URLCreate.mk "https://example.com" None None) sample_request
           (world_of sample_db [])).
  reflexivity.
Defined.

(** ** Redirect *)

Lemma close_if_bound_returns w :
  exists w', close_if_bound w = (Return tt, w').
Proof.
  unfold close_if_bound, conn_bound, conn_close, when, bind, ret.
  destruct (session w); eauto.
Qed.

(** Whatever the storage layer does, [redirect_url] either returns the
    redirect or raises the one error of its [except Exception] clause: the
    404 and 410 raised inside its [try] never leave the handler. *)
Lemma redirect_url_outcomes sp req w :
  (exists resp, fst (redirect_url sp req w) = Return resp)
  \/ fst (redirect_url sp req w) =
       Raise (HTTPException 500 (Some "Erro interno ao processar o acesso")).
Proof.
  unfold redirect_url.
  rewrite (bind_Return conn_unset _ w tt (with_session None w)) by reflexivity.
  unfold try_finally, try_except, except_Exception.
  match goal with |- context [bind get_db_connection ?k ?w0] =>
    destruct (bind get_db_connection k w0) as [[resp|e] w1] end.
  - destruct (close_if_bound_returns w1) as [w2 ->]. left. simpl. eauto.
  - right.
    match goal with |- context [bind conn_bound ?k w1] =>
      assert (Hh : exists w2, bind conn_bound k w1 =
                (Raise (HTTPException 500
                          (Some "Erro interno ao processar o acesso")), w2)) end.
    { unfold bind, conn_bound, when, conn_rollback, ret, raise.
      destruct (session w1) eqn:E; simpl; rewrite ?E; eexists; reflexivity. }
    destruct Hh as [w2 ->].
    destruct (close_if_bound_returns w2) as [w3 ->]. reflexivity.
Qed.

(** On a [short_path] that no stored row has, the 404 of [redirect_url] is
    caught by its own [except Exception] clause and answered as 500. *)
Lemma redirect_url_absent sp req w :
  quiet w ->
  (forall r, In r (tbl_urls (committed w)) -> urls.short_path r <> sp) ->
  fst (redirect_url sp req w) =
    Raise (HTTPException 500 (Some "Erro interno ao processar o acesso"))
  /\ committed (snd (redirect_url sp req w)) = committed w.
Proof.
  intros Hq Hmissing. apply find_has_short_path_None in Hmissing.
  open_world w.
  quiet_cases Hq sch 2%nat ltac:(run; rewrite Hmissing; run; auto).
Qed.

(** C1 (what the code does instead): on a [short_path] that no stored row
    has, [redirect_url] raises its 404 inside the [try] block, the
    [except Exception] clause catches it, and the handler answers 500, not
    404.  The tables are left unchanged, so no access log is inserted. *)
Theorem redirect_url_missing_row sp req w :
  quiet w ->
  (forall r, In r (tbl_urls (committed w)) -> urls.short_path r <> sp) ->
  status_of (fst (redirect_url sp req w)) = Some 500
  /\ status_of (fst (redirect_url sp req w)) <> Some 404
  /\ tbl_access_logs (committed (snd (redirect_url sp req w))) =
       tbl_access_logs (committed w)
  /\ tbl_urls (committed (snd (redirect_url sp req w))) =
       tbl_urls (committed w).
Proof.
  intros Hq Hmissing.
  destruct (redirect_url_absent sp req w Hq Hmissing) as [Hout Hdb].
  rewrite Hout, Hdb. simpl. repeat split; congruence.
Qed.

Lemma redirect_url_missing_row_witness :
  status_of (fst (redirect_url "nope00" sample_request
                    (world_of sample_db []))) = Some 500
  /\ status_of (fst (redirect_url "nope00" sample_request
                       (world_of sample_db []))) <> Some 404
  /\ tbl_access_logs (committed (snd (redirect_url "nope00" sample_request
                                       (world_of sample_db [])))) =
       tbl_access_logs sample_db
  /\ tbl_urls (committed (snd (redirect_url "nope00" sample_request
                                (world_of sample_db [])))) =
       tbl_urls sample_db.
Proof.
  apply (redirect_url_missing_row "nope00" sample_request (world_of sample_db [])).
  - reflexivity.
  - intros r [<-|[<-|[]]]; discriminate.
Defined.

(** C2 (what the code does instead): on a row whose [expires_at] is set and
    strictly before the handler's clock, [redirect_url] raises its 410 inside
    the [try] block, the [except Exception] clause catches it, and the
    handler answers 500, not 410.  The tables are left unchanged: no access
    log is written. *)
Theorem redirect_url_expired_row sp req w r t :
  quiet w ->
  find (has_short_path sp) (tbl_urls (committed w)) = Some r ->
  urls.expires_at r = Some t ->
  t < py_now w ->
  fst (redirect_url sp req w) =
    Raise (HTTPException 500 (Some "Erro interno ao processar o acesso"))
  /\ status_of (fst (redirect_url sp req w)) <> Some 410
  /\ committed (snd (redirect_url sp req w)) = committed w.
Proof.
  intros Hq Hfind Hexp Hpast. open_world w.
  apply Z.ltb_lt in Hpast.
  quiet_cases Hq sch 2%nat
    ltac:(run; rewrite Hfind; run; rewrite Hexp; run; rewrite Hpast; run;
          repeat split; discriminate).
Qed.

Lemma redirect_url_expired_row_witness :
  fst (redirect_url "old001" sample_request (world_of sample_db [])) =
    Raise (HTTPException 500 (Some "Erro interno ao processar o acesso"))
  /\ status_of (fst (redirect_url "old001" sample_request
                       (world_of sample_db []))) <> Some 410
  /\ committed (snd (redirect_url "old001" sample_request
                       (world_of sample_db []))) = sample_db.
Proof.
  apply (redirect_url_expired_row "old001" sample_request
           (world_of sample_db [])
           (urls.mk 2 "https://old.example" "old001" 400 400 (Some 500)) 500).
  - reflexivity.
  - reflexivity.
  - reflexivity.
  - reflexivity.
Defined.

Lemma existsb_has_id rows r :
  In r rows -> existsb (has_id (urls.id r)) rows = true.
Proof.
  intros Hin. apply existsb_exists. exists r. split; [exact Hin|].
  unfold has_id. apply Z.eqb_refl.
Qed.




(** ** Update *)

(** Case analysis on the next [n] events of an arbitrary schedule. *)
Ltac event_cases sch n tac :=
  lazymatch n with
  | O => tac
  | S ?m =>
      let msg := fresh "msg" in
      let other := fresh "other" in
      destruct sch as [|[|msg|other] sch];
      [ tac | event_cases sch m tac | tac | event_cases sch m tac ]
  end.

Lemma set_original_url_spec original_url now sp rows r :
  In r (map (set_original_url original_url now sp) rows) ->
  urls.short_path r = sp ->
  urls.updated_at r = now /\ urls.original_url r = original_url.
Proof.
  intros Hin Hsp. apply in_map_iff in Hin. destruct Hin as [x [Hx _]].
  unfold set_original_url in Hx.
  destruct (has_short_path sp x) eqn:E.
  - subst r. simpl. auto.
  - subst r. unfold has_short_path in E. rewrite Hsp, String.eqb_refl in E.
    discriminate.
Qed.

(** C10: the [updated_at] of the response of a successful Update is the
    reading of the handler's own clock ([datetime.now()]), taken after the
    write; it is not read back from the row, whose [updated_at] the database
    set from its [NOW()].  Whenever the two clocks differ, the timestamp
    returned differs from the one stored. *)
Theorem update_url_returns_local_clock sp data req w resp w' :
  update_url sp data req w = (Return resp, w') ->
  UpdateResponse.updated_at resp = py_now w
  /\ (quiet w ->
      (exists r, In r (tbl_urls (committed w')) /\ urls.short_path r = sp
                 /\ urls.id r = UpdateResponse.id resp)
      /\ forall r, In r (tbl_urls (committed w')) -> urls.short_path r = sp ->
           urls.updated_at r = db_now w
           /\ urls.original_url r = URLUpdate.original_url data
           /\ (py_now w <> db_now w ->
               UpdateResponse.updated_at resp <> urls.updated_at r)).
Proof.
  intros Hrun. open_world w. split.
  - event_cases sch 3%nat
      ltac:(run_in Hrun; split_lookups_in Hrun;
            first [ discriminate Hrun | inversion Hrun; reflexivity ]).
  - intros Hq.
    assert (Hdone : exists r0,
              find (has_short_path sp)
                   (map (set_original_url (URLUpdate.original_url data) dbn sp)
                        (tbl_urls c)) = Some r0
              /\ UpdateResponse.id resp = urls.id r0
              /\ UpdateResponse.updated_at resp = py
              /\ committed w' =
                   mkDB (map (set_original_url (URLUpdate.original_url data) dbn sp)
                             (tbl_urls c))
                        (tbl_access_logs c)).
    { quiet_cases Hq sch 3%nat
        ltac:(run_in Hrun; split_lookups_in Hrun;
              first [ discriminate Hrun
                    | inversion Hrun; subst; eexists; repeat split; reflexivity ]). }
    destruct Hdone as (r0 & Hfind & Hid & Hpy & Hdb).
    rewrite Hdb. cbn [tbl_urls]. split.
    + exists r0. apply find_has_short_path in Hfind. destruct Hfind. auto.
    + intros r Hin Hsp.
      destruct (set_original_url_spec _ _ _ _ _ Hin Hsp) as [Hu Ho].
      repeat split; auto. intros Hdiff. rewrite Hpy, Hu. exact Hdiff.
Qed.

Lemma update_url_returns_local_clock_witness :
  let run := update_url "abc123" (URLUpdate.mk "https://new.example")
               sample_request (world_of sample_db []) in
  fst run = Return (UpdateResponse.mk 1 "http://testserver/abc123"
                      "https://new.example" 1000)
  /\ In (urls.mk 1 "https://new.example" "abc123" 900 1005 None)
        (tbl_urls (committed (snd run)))
  /\ forall r, In r (tbl_urls (committed (snd run))) ->
       urls.short_path r = "abc123" -> 1000 <> urls.updated_at r.
Proof.
  intros run.
  assert (Hrun : update_url "abc123" (URLUpdate.mk "https://new.example")
                   sample_request (world_of sample_db []) =
                 (Return (UpdateResponse.mk 1 "http://testserver/abc123"
                            "https://new.example" 1000), snd run))
    by (vm_compute; reflexivity).
  destruct (update_url_returns_local_clock _ _ _ _ _ _ Hrun) as [_ H].
  destruct (H eq_refl) as [_ Hrows].
  split; [vm_compute; reflexivity|]. split; [vm_compute; left; reflexivity|].
  intros r Hin Hsp. destruct (Hrows r Hin Hsp) as (_ & _ & Hdiff).
  apply Hdiff. discriminate.
Defined.

(** ** Statistics and Delete *)

Lemma get_stats_absent sp req w :
  quiet w ->
  (forall r, In r (tbl_urls (committed w)) -> urls.short_path r <> sp) ->
  fst (get_stats sp req w) =
    Raise (HTTPException 404 (Some "URL não encontrada")).
Proof.
  intros Hq Hmissing. apply find_has_short_path_None in Hmissing.
  open_world w.
  quiet_cases Hq sch 2%nat ltac:(run; rewrite Hmissing; run; auto).
Qed.

Lemma update_url_absent sp data req w :
  quiet w ->
  (forall r, In r (tbl_urls (committed w)) -> urls.short_path r <> sp) ->
  fst (update_url sp data req w) =
    Raise (HTTPException 404 (Some "URL não encontrada")).
Proof.
  intros Hq Hmissing.
  assert (Hnone : forall now,
            find (has_short_path sp)
              (map (set_original_url (URLUpdate.original_url data) now sp)
                   (tbl_urls (committed w))) = None).
  { intros now. apply find_has_short_path_None. intros r Hin Hsp.
    apply in_map_iff in Hin. destruct Hin as [x [Hx Hin]].
    unfold set_original_url in Hx.
    destruct (has_short_path sp x) eqn:E.
    - unfold has_short_path in E. apply String.eqb_eq in E.
      now apply Hmissing in Hin.
    - subst x. now apply Hmissing in Hin. }
  open_world w.
  quiet_cases Hq sch 2%nat ltac:(run; rewrite Hnone; run; auto).
Qed.

Lemma existsb_filter_negb {A} (f : A -> bool) l :
  existsb f (filter (fun x => negb (f x)) l) = false.
Proof.
  induction l as [|x l IH]; simpl; [reflexivity|].
  destruct (f x) eqn:E; simpl; [exact IH|]. now rewrite E.
Qed.

(** In a quiet world, Delete of a stored path removes the logs of the row
    found and then the row, commits, and leaves a quiet world. *)
Lemma delete_url_quiet sp w r :
  quiet w ->
  find (has_short_path sp) (tbl_urls (committed w)) = Some r ->
  fst (delete_url sp w) = Return tt
  /\ committed (snd (delete_url sp w)) =
       mkDB (filter (fun x => negb (has_id (urls.id r) x)) (tbl_urls (committed w)))
            (filter (fun l => negb (logs_of (urls.id r) l))
                    (tbl_access_logs (committed w)))
  /\ quiet (snd (delete_url sp w)).
Proof.
  intros Hq Hfind.
  pose proof (existsb_filter_negb (logs_of (urls.id r))
                (tbl_access_logs (committed w))) as Hfk.
  open_world w.
  quiet_cases Hq sch 5%nat
    ltac:(run; rewrite Hfind; run; rewrite Hfk; split_lookups; run;
          repeat split; first [ reflexivity | exact Hq ]).
Qed.

(** C7 (what the code does): Delete of a stored path removes the row and
    every access log that references it; afterwards statistics and update on
    that path answer 404, but redirect answers 500: its 404 is caught by the
    handler's own [except Exception] clause. *)
Theorem delete_url_then_lookups sp req data w r :
  quiet w ->
  short_path_unique (committed w) ->
  find (has_short_path sp) (tbl_urls (committed w)) = Some r ->
  let w1 := snd (delete_url sp w) in
  fst (delete_url sp w) = Return tt
  /\ (forall r', In r' (tbl_urls (committed w1)) -> urls.short_path r' <> sp)
  /\ (forall l, In l (tbl_access_logs (committed w1)) ->
        access_logs.url_id l <> urls.id r)
  /\ fst (get_stats sp req w1) =
       Raise (HTTPException 404 (Some "URL não encontrada"))
  /\ fst (update_url sp data req w1) =
       Raise (HTTPException 404 (Some "URL não encontrada"))
  /\ fst (redirect_url sp req w1) =
       Raise (HTTPException 500 (Some "Erro interno ao processar o acesso"))
  /\ status_of (fst (redirect_url sp req w1)) <> Some 404.
Proof.
  intros Hq Huniq Hfind w1.
  destruct (delete_url_quiet sp w r Hq Hfind) as (Hout & Hdb & Hq1).
  fold w1 in Hdb, Hq1.
  assert (Hgone : forall r', In r' (tbl_urls (committed w1)) ->
                             urls.short_path r' <> sp).
  { intros r' Hin Hsp. rewrite Hdb in Hin. cbn [tbl_urls] in Hin.
    apply filter_In in Hin. destruct Hin as [Hin Hid].
    apply find_has_short_path in Hfind. destruct Hfind as [Hr Hrsp].
    assert (r' = r) by (eapply short_path_unique_inj; eauto; congruence).
    subst r'. unfold has_id in Hid. rewrite Z.eqb_refl in Hid. discriminate. }
  split; [exact Hout|]. split; [exact Hgone|]. split.
  { intros l Hin Hid. rewrite Hdb in Hin. cbn [tbl_access_logs] in Hin.
    apply filter_In in Hin. destruct Hin as [_ Hneg].
    unfold logs_of in Hneg. rewrite Hid, Z.eqb_refl in Hneg. discriminate. }
  split; [now apply get_stats_absent|].
  split; [now apply update_url_absent|].
  destruct (redirect_url_absent sp req w1 Hq1 Hgone) as [H500 _].
  split; [exact H500|]. rewrite H500. discriminate.
Qed.

Lemma delete_url_then_lookups_witness :
  let w1 := snd (delete_url "abc123" (world_of sample_db [])) in
  fst (delete_url "abc123" (world_of sample_db [])) = Return tt
  /\ (forall r', In r' (tbl_urls (committed w1)) ->
        urls.short_path r' <> "abc123")
  /\ (forall l, In l (tbl_access_logs (committed w1)) ->
        access_logs.url_id l <> 1)
  /\ fst (get_stats "abc123" sample_request w1) =
       Raise (HTTPException 404 (Some "URL não encontrada"))
  /\ fst (update_url "abc123" (URLUpdate.mk "https://new.example")
            sample_request w1) =
       Raise (HTTPException 404 (Some "URL não encontrada"))
  /\ fst (redirect_url "abc123" sample_request w1) =
       Raise (HTTPException 500 (Some "Erro interno ao processar o acesso"))
  /\ status_of (fst (redirect_url "abc123" sample_request w1)) <> Some 404.
Proof.
  apply (delete_url_then_lookups "abc123" sample_request
           (URLUpdate.mk "https://new.example") (world_of sample_db [])
           (urls.mk 1 "https://a.com" "abc123" 900 900 None)).
  - reflexivity.
  - unfold short_path_unique. simpl.
    repeat constructor; simpl; intuition discriminate.
  - reflexivity.
Defined.

(** ** Storage failures *)

Lemma tracked_ret {A} (a : A) : tracked (ret a).
Proof. intros w. reflexivity. Qed.

Lemma tracked_raise {A} e : is_driver_error e = false -> tracked (@raise A e).
Proof. intros H w. unfold raise. destruct e; try reflexivity. discriminate. Qed.

Lemma tracked_bind {A B} (m : Handler A) (k : A -> Handler B) :
  tracked m -> (forall a, tracked (k a)) -> tracked (bind m k).
Proof.
  intros Hm Hk w. unfold bind. specialize (Hm w).
  destruct (m w) as [[a|e] w1].
  - specialize (Hk a w1). destruct (k a w1) as [[b|e] w2].
    + congruence.
    + destruct e; congruence.
  - exact Hm.
Qed.

Lemma tracked_driver_raise {A} pgerror : tracked (@driver_raise A pgerror).
Proof. intros w. reflexivity. Qed.

Lemma tracked_storage_call : tracked storage_call.
Proof.
  intros w. unfold storage_call, bind, next_event.
  destruct (hd Quiet (schedule w)); reflexivity.
Qed.

Lemma tracked_run_sql {A} (stmt : Statement A) : tracked (run_sql stmt).
Proof.
  intros w. unfold run_sql. destruct (session w) as [db|]; [|reflexivity].
  destruct (stmt db) as [e|[a db']]; reflexivity.
Qed.

Lemma tracked_pure {A} (f : World -> A) (g : World -> World) :
  (forall w, driver_errors (g w) = driver_errors w) ->
  tracked (fun w => (Return (f w), g w)).
Proof. intros H w. apply H. Qed.

Lemma tracked_conn_commit : tracked conn_commit.
Proof.
  unfold conn_commit. apply tracked_bind; [apply tracked_storage_call|].
  intros _ w. destruct (session w); reflexivity.
Qed.

Lemma tracked_get_db_connection : tracked get_db_connection.
Proof.
  unfold get_db_connection. apply tracked_bind; [apply tracked_storage_call|].
  intros _ w. reflexivity.
Qed.

Lemma tracked_client_host req : tracked (client_host req).
Proof.
  unfold client_host. destruct (Request.client req).
  - apply tracked_ret.
  - now apply tracked_raise.
Qed.

Lemma tracked_is_expired expires_at : tracked (is_expired expires_at).
Proof.
  unfold is_expired. destruct expires_at; intros w; reflexivity.
Qed.

Create HintDb tracked.
#[local] Hint Resolve tracked_ret tracked_driver_raise tracked_storage_call
  tracked_run_sql tracked_conn_commit tracked_get_db_connection
  tracked_client_host tracked_is_expired : tracked.

(** The body of a handler is built from tracked parts. *)
Ltac tracked_body :=
  repeat first
    [ solve [ auto with tracked ]
    | apply tracked_bind; [| intros ?]
    | apply tracked_raise; reflexivity
    | solve [ intros ?; reflexivity ]
    | match goal with
      | |- tracked (match ?x with _ => _ end) => destruct x
      end ].

Lemma l_neq_cons {A} (x : A) l : l <> x :: l.
Proof.
  intros H. apply (f_equal (@List.length A)) in H. simpl in H. lia.
Qed.

Lemma close_if_bound_errors w :
  exists w', close_if_bound w = (Return tt, w')
             /\ driver_errors w' = driver_errors w.
Proof.
  unfold close_if_bound, conn_bound, conn_close, when, bind, ret.
  destruct (session w); eexists; split; reflexivity.
Qed.

(** [try: body except psycopg2.Error as e: raise h(e) finally: close]: when
    the driver failed during the run, the outcome is [h] of its error. *)
Lemma failed_try_except_psycopg2 {A} (body : Handler A) (h : string -> Exn)
    pgerror w :
  tracked body ->
  failed_with pgerror
    (try_finally
       (try_except body (except_psycopg2_Error (fun e => raise (h e))))
       close_if_bound) w ->
  fst (try_finally
         (try_except body (except_psycopg2_Error (fun e => raise (h e))))
         close_if_bound w) = Raise (h pgerror).
Proof.
  intros Hb. unfold failed_with, try_finally, try_except, except_psycopg2_Error.
  specialize (Hb w). destruct (body w) as [[a|e] w1].
  - destruct (close_if_bound_errors w1) as [w2 [-> Hlog]]. simpl.
    rewrite Hlog, Hb. intros H. now apply l_neq_cons in H.
  - destruct e; unfold raise;
      match goal with
      | |- context [close_if_bound ?x] =>
          destruct (close_if_bound_errors x) as [w2 [-> Hlog]]
      end; simpl; rewrite Hlog, Hb; intros H;
      try (now apply l_neq_cons in H).
    congruence.
Qed.

(** [try: body except Exception: ...; raise generic finally: close] as in
    [redirect_url]. *)
Lemma failed_try_except_Exception {A} (body : Handler A) (generic : Exn)
    pgerror w :
  tracked body ->
  failed_with pgerror
    (try_finally
       (try_except body
          (except_Exception (fun e =>
             b <- conn_bound ;; when b conn_rollback ;; raise generic)))
       close_if_bound) w ->
  fst (try_finally
         (try_except body
            (except_Exception (fun e =>
               b <- conn_bound ;; when b conn_rollback ;; raise generic)))
         close_if_bound w) = Raise generic.
Proof.
  intros Hb. unfold failed_with, try_finally, try_except, except_Exception.
  specialize (Hb w). destruct (body w) as [[a|e] w1].
  - destruct (close_if_bound_errors w1) as [w2 [-> Hlog]]. simpl.
    rewrite Hlog, Hb. intros H. now apply l_neq_cons in H.
  - intros _.
    assert (Hh : exists w2,
               (b <- conn_bound ;; when b conn_rollback ;; raise generic) w1
               = (@Raise A generic, w2)).
    { unfold bind, conn_bound, when, conn_rollback, ret, raise.
      destruct (session w1) eqn:E; simpl; rewrite ?E; eexists; reflexivity. }
    destruct Hh as [w2 ->].
    destruct (close_if_bound_errors w2) as [w3 [-> _]]. reflexivity.
Qed.

(** [try: body finally: close], without [except], as in [update_url]. *)
Lemma failed_try_finally {A} (body : Handler A) pgerror w :
  tracked body ->
  failed_with pgerror (try_finally body close_if_bound) w ->
  fst (try_finally body close_if_bound w) = Raise (psycopg2_Error pgerror).
Proof.
  intros Hb. unfold failed_with, try_finally.
  specialize (Hb w). destruct (body w) as [[a|e] w1];
    destruct (close_if_bound_errors w1) as [w2 [-> Hlog]]; simpl;
    rewrite Hlog.
  - rewrite Hb. intros H. now apply l_neq_cons in H.
  - destruct e; rewrite Hb; intros H; try (now apply l_neq_cons in H).
    congruence.
Qed.

Ltac skip_conn_unset :=
  match goal with
  | |- context [bind conn_unset ?k ?w] =>
      rewrite (bind_Return conn_unset k w tt (with_session None w))
        by reflexivity
  end.

Lemma create_url_failed data req w pgerror :
  failed_with pgerror (create_url data req) w ->
  fst (create_url data req w) =
    Raise (HTTPException 500 (Some ("Erro no banco de dados: " ++ pgerror)%string)).
Proof.
  destruct (resolve_short_path_frame data w) as [sp [n Hres]].
  unfold failed_with, create_url. rewrite (bind_Return _ _ _ _ _ Hres).
  destruct (compute_expires_at_cases (URLCreate.expires_in_days data)
              (with_rng_pos n w)) as [[expires_at Hexp]|[e [Hexp _]]].
  - rewrite (bind_Return _ _ _ _ _ Hexp).
    skip_conn_unset. intros H.
    apply (failed_try_except_psycopg2 _
             (fun e => HTTPException 500
                         (Some ("Erro no banco de dados: " ++ e)%string)));
      [tracked_body | exact H].
  - rewrite (bind_Raise _ _ _ _ _ Hexp). intros H. simpl in H.
    now apply l_neq_cons in H.
Qed.

Lemma get_stats_failed sp req w pgerror :
  failed_with pgerror (get_stats sp req) w ->
  fst (get_stats sp req w) =
    Raise (HTTPException 500 (Some ("Erro no banco de dados: " ++ pgerror)%string)).
Proof.
  unfold failed_with, get_stats. skip_conn_unset. intros H.
  apply (failed_try_except_psycopg2 _
           (fun e => HTTPException 500
                       (Some ("Erro no banco de dados: " ++ e)%string)));
    [tracked_body | exact H].
Qed.

Lemma list_urls_failed req page per_page w pgerror :
  failed_with pgerror (list_urls req page per_page) w ->
  fst (list_urls req page per_page w) = Raise (HTTPException 500 None).
Proof.
  unfold failed_with, list_urls. skip_conn_unset. intros H.
  apply (failed_try_except_psycopg2 _ (fun _ => HTTPException 500 None)
           pgerror);
    [tracked_body | exact H].
Qed.

Lemma redirect_url_failed sp req w pgerror :
  failed_with pgerror (redirect_url sp req) w ->
  fst (redirect_url sp req w) =
    Raise (HTTPException 500 (Some "Erro interno ao processar o acesso")).
Proof.
  unfold failed_with, redirect_url. skip_conn_unset. intros H.
  apply (failed_try_except_Exception _ _ pgerror); [tracked_body | exact H].
Qed.

Lemma update_url_failed sp data req w pgerror :
  failed_with pgerror (update_url sp data req) w ->
  fst (update_url sp data req w) = Raise (psycopg2_Error pgerror).
Proof.
  unfold failed_with, update_url. skip_conn_unset. intros H.
  apply failed_try_finally; [tracked_body | exact H].
Qed.

(** In [delete_url] the [except] clause calls [conn.rollback()] first: when
    the connection itself could not be opened, [conn] is unbound and the
    clause fails with [UnboundLocalError]; otherwise the answer quotes the
    driver's text. *)
Lemma delete_url_failed sp w pgerror :
  failed_with pgerror (delete_url sp) w ->
  fst (delete_url sp w) =
    if no_fault (hd Quiet (schedule w))
    then Raise (HTTPException 500
                  (Some ("Erro no banco de dados: " ++ pgerror)%string))
    else Raise (UnboundLocalError "conn").
Proof.
  unfold failed_with. open_world w.
  event_cases sch 5%nat
    ltac:(run; split_lookups; cbn [no_fault]; intros H;
          first [ exfalso; apply l_neq_cons in H; exact H
                | reflexivity
                | inversion H; subst; reflexivity ]).
Qed.

Lemma prefix_refl s : String.prefix s s = true.
Proof.
  induction s as [|a s IH]; simpl; [reflexivity|].
  destruct (ascii_dec a a); [exact IH | congruence].
Qed.

Lemma contains_append p s : contains s (p ++ s)%string = true.
Proof.
  induction p as [|a p IH]; simpl.
  - destruct s; simpl; [reflexivity|].
    destruct (ascii_dec a a); [|congruence]. now rewrite prefix_refl.
  - rewrite IH. apply orb_true_r.
Qed.

(** C4 (amended to what the handlers do): when the driver fails during an
    operation, [redirect_url] and [list_urls] answer 500 with a fixed message
    that does not depend on the driver's text, but [create_url], [get_stats]
    and [delete_url] (its connection being open) answer 500 with the detail
    "Erro no banco de dados: " followed by the driver's exception text. *)
Theorem storage_failure_responses w pgerror :
  (forall data req,
     failed_with pgerror (create_url data req) w ->
     fst (create_url data req w) =
       Raise (HTTPException 500
                (Some ("Erro no banco de dados: " ++ pgerror)%string))
     /\ leaks pgerror (fst (create_url data req w)) = true)
  /\ (forall sp req,
        failed_with pgerror (get_stats sp req) w ->
        fst (get_stats sp req w) =
          Raise (HTTPException 500
                   (Some ("Erro no banco de dados: " ++ pgerror)%string))
        /\ leaks pgerror (fst (get_stats sp req w)) = true)
  /\ (forall sp,
        failed_with pgerror (delete_url sp) w ->
        no_fault (hd Quiet (schedule w)) = true ->
        fst (delete_url sp w) =
          Raise (HTTPException 500
                   (Some ("Erro no banco de dados: " ++ pgerror)%string))
        /\ leaks pgerror (fst (delete_url sp w)) = true)
  /\ (forall sp req,
        failed_with pgerror (redirect_url sp req) w ->
        fst (redirect_url sp req w) =
          Raise (HTTPException 500 (Some "Erro interno ao processar o acesso")))
  /\ (forall req page per_page,
        failed_with pgerror (list_urls req page per_page) w ->
        fst (list_urls req page per_page w) = Raise (HTTPException 500 None)).
Proof.
  repeat split.
  - now apply create_url_failed.
  - rewrite (create_url_failed _ _ _ _ H). unfold leaks. apply contains_append.
  - now apply get_stats_failed.
  - rewrite (get_stats_failed _ _ _ _ H). unfold leaks. apply contains_append.
  - rewrite (delete_url_failed _ _ _ H), H0. reflexivity.
  - rewrite (delete_url_failed _ _ _ H), H0. unfold leaks. apply contains_append.
  - intros sp req. apply redirect_url_failed.
  - intros req page per_page. apply list_urls_failed.
Qed.

Lemma storage_failure_responses_witness :
  fst (create_url (URLCreate.mk "https://example.com" (Some "new001") None)
         sample_request
         (world_of sample_db [DriverFails "connection refused"])) =
    Raise (HTTPException 500
             (Some "Erro no banco de dados: connection refused"))
  /\ fst (redirect_url "abc123" sample_request
            (world_of sample_db [DriverFails "connection refused"])) =
       Raise (HTTPException 500 (Some "Erro interno ao processar o acesso")).
Proof.
  destruct (storage_failure_responses
              (world_of sample_db [DriverFails "connection refused"])
              "connection refused")
    as (Hcreate & _ & _ & Hredirect & _).
  split.
  - apply Hcreate. vm_compute. reflexivity.
  - apply Hredirect. vm_compute. reflexivity.
Defined.

(** C4, refuted as stated: a Create whose connection attempt fails answers
    with a body that quotes the driver's exception text. *)
Lemma create_url_leaks_driver_text :
  let pgerror := "FATAL: password authentication failed for user shortener" in
  let run := create_url (URLCreate.mk "https://example.com" (Some "new001") None)
               sample_request (world_of sample_db [DriverFails pgerror]) in
  failed_with pgerror
    (create_url (URLCreate.mk "https://example.com" (Some "new001") None)
       sample_request) (world_of sample_db [DriverFails pgerror])
  /\ fst run =
       Raise (HTTPException 500
                (Some "Erro no banco de dados: FATAL: password authentication failed for user shortener"))
  /\ leaks pgerror (fst run) = true.
Proof. vm_compute. repeat split. Qed.

(** ** Two racing Creates *)

(** C3 (amended to what the handler does): when a Create has reached its
    uniqueness check (its expiry, if any, was computed), the check passes and
    the insert that follows is rejected by the unique constraint on
    [short_path] (another Create of the same path committed in between), the
    [except psycopg2.Error] clause answers 500 with the driver's text, not
    409; nothing is written by this request. *)
Theorem create_url_race_is_500 data req w sp w1 expires_at e1 e2 e3 rest :
  resolve_short_path data w = (Return sp, w1) ->
  fst (compute_expires_at (URLCreate.expires_in_days data) w) =
    Return expires_at ->
  schedule w = e1 :: e2 :: e3 :: rest ->
  no_fault e1 = true -> no_fault e2 = true -> no_fault e3 = true ->
  let seen_by_check := env e2 (env e1 (committed w)) in
  let seen_by_insert := env e3 seen_by_check in
  find (has_short_path sp) (tbl_urls seen_by_check) = None ->
  (exists r, In r (tbl_urls seen_by_insert) /\ urls.short_path r = sp) ->
  fst (create_url data req w) =
    Raise (HTTPException 500
             (Some ("Erro no banco de dados: " ++ unique_violation)%string))
  /\ status_of (fst (create_url data req w)) <> Some 409
  /\ committed (snd (create_url data req w)) = seen_by_insert.
Proof.
  intros Hres Hexp Hsch H1 H2 H3 seen_by_check seen_by_insert Hfree Htaken.
  apply existsb_has_short_path in Htaken.
  subst seen_by_check seen_by_insert.
  start_create_with Hres Hexp w1. clear Hres Hexp.
  open_world w. subst sch.
  destruct e1 as [|m1|o1]; try discriminate H1;
    destruct e2 as [|m2|o2]; try discriminate H2;
    destruct e3 as [|m3|o3]; try discriminate H3;
    cbn [env] in Hfree, Htaken;
    run; rewrite Hfree; run; rewrite Htaken; run;
    repeat split; discriminate.
Qed.

Lemma create_url_race_is_500_witness :
  let data := URLCreate.mk "https://b.com" (Some "zzz999") None in
  let w := world_of sample_db [Quiet; Quiet; Concurrent (racing_create "zzz999")] in
  fst (create_url data sample_request w) =
    Raise (HTTPException 500
             (Some ("Erro no banco de dados: " ++ unique_violation)%string))
  /\ status_of (fst (create_url data sample_request w)) <> Some 409
  /\ committed (snd (create_url data sample_request w)) =
       racing_create "zzz999" sample_db.
Proof.
  intros data w.
  apply (create_url_race_is_500 data sample_request w "zzz999" w None
           Quiet Quiet (Concurrent (racing_create "zzz999")) []).
  - reflexivity.
  - reflexivity.
  - reflexivity.
  - reflexivity.
  - reflexivity.
  - reflexivity.
  - reflexivity.
  - eexists. split; [right; right; left; reflexivity | reflexivity].
Defined.

(** C3, refuted as stated: two Creates of the same path race; the check of
    this one sees no such row, its insert is rejected by the unique
    constraint, and the answer is 500, not 409. *)
Lemma create_url_race_counterexample :
  let data := URLCreate.mk "https://b.com" (Some "zzz999") None in
  let w := world_of sample_db [Quiet; Quiet; Concurrent (racing_create "zzz999")] in
  find (has_short_path "zzz999") (tbl_urls (committed w)) = None
  /\ failed_with unique_violation (create_url data sample_request) w
  /\ status_of (fst (create_url data sample_request w)) = Some 500
  /\ status_of (fst (create_url data sample_request w)) <> Some 409.
Proof. vm_compute. repeat split. discriminate. Qed.

(** ** List *)

Section OrderBy.
Context {A : Type} (key : A -> Z).

Lemma insert_desc_perm x l : Permutation (insert_desc key x l) (x :: l).
Proof.
  induction l as [|y l IH]; simpl; [reflexivity|].
  destruct (key y <=? key x); [reflexivity|].
  rewrite IH. apply perm_swap.
Qed.

Lemma order_by_desc_perm l : Permutation (order_by_desc key l) l.
Proof.
  induction l as [|x l IH]; simpl; [constructor|].
  rewrite insert_desc_perm. now constructor.
Qed.

Lemma insert_desc_sorted x l :
  StronglySorted (desc key) l ->
  StronglySorted (desc key) (insert_desc key x l).
Proof.
  induction 1 as [|y l Hs IH Hall]; simpl.
  - constructor; constructor.
  - destruct (key y <=? key x) eqn:E.
    + apply Z.leb_le in E. constructor.
      * now constructor.
      * constructor; [exact E|].
        eapply Forall_impl; [|exact Hall]. unfold desc. intros z Hz. lia.
    + apply Z.leb_gt in E. constructor; [exact IH|].
      apply (Permutation_Forall (Permutation_sym (insert_desc_perm x l))).
      constructor; [unfold desc; lia | exact Hall].
Qed.

Lemma order_by_desc_sorted l : StronglySorted (desc key) (order_by_desc key l).
Proof.
  induction l as [|x l IH]; simpl; [constructor|].
  now apply insert_desc_sorted.
Qed.

End OrderBy.

Section Ties.
Context {A : Type} (key : A -> Z).

Lemma order_by_desc_ties_perm tie l :
  Permutation (order_by_desc_ties key tie l) l.
Proof.
  unfold order_by_desc_ties.
  rewrite (order_by_desc_perm key). apply (order_by_desc_perm tie).
Qed.

Lemma order_by_desc_ties_sorted tie l :
  StronglySorted (desc key) (order_by_desc_ties key tie l).
Proof. apply order_by_desc_sorted. Qed.

Lemma NoDup_map_inj l x y :
  NoDup (map key l) -> In x l -> In y l -> key x = key y -> x = y.
Proof.
  induction l as [|z l IH]; simpl; intros Hnd Hx Hy Heq; [contradiction|].
  inversion Hnd as [|? ? Hnotin Hnd']; subst.
  destruct Hx as [->|Hx], Hy as [->|Hy]; auto.
  - exfalso. apply Hnotin. rewrite Heq. now apply in_map.
  - exfalso. apply Hnotin. rewrite <- Heq. now apply in_map.
Qed.

(** With pairwise distinct keys there is one descending order only. *)
Lemma sorted_perm_unique l1 :
  forall l2,
    NoDup (map key l1) ->
    StronglySorted (desc key) l1 -> StronglySorted (desc key) l2 ->
    Permutation l1 l2 -> l1 = l2.
Proof.
  induction l1 as [|x l1 IH]; intros l2 Hnd Hs1 Hs2 Hp.
  - apply Permutation_nil in Hp. now subst.
  - destruct l2 as [|y l2].
    { apply Permutation_sym, Permutation_nil in Hp. discriminate. }
    assert (x = y).
    { apply (NoDup_map_inj (x :: l1)); auto.
      - now left.
      - apply (Permutation_in _ (Permutation_sym Hp)). now left.
      - apply StronglySorted_inv in Hs1. destruct Hs1 as [_ Hall1].
        apply StronglySorted_inv in Hs2. destruct Hs2 as [_ Hall2].
        rewrite Forall_forall in Hall1, Hall2.
        assert (Hy : In y (x :: l1))
          by (apply (Permutation_in _ (Permutation_sym Hp)); now left).
        assert (Hx : In x (y :: l2))
          by (apply (Permutation_in _ Hp); now left).
        destruct Hy as [Hy|Hy]; [now subst|].
        destruct Hx as [Hx|Hx]; [now subst|].
        specialize (Hall1 y Hy). specialize (Hall2 x Hx).
        unfold desc in *. lia. }
    subst y. f_equal. apply IH.
    + now inversion Hnd.
    + now apply StronglySorted_inv in Hs1.
    + now apply StronglySorted_inv in Hs2.
    + now apply Permutation_cons_inv in Hp.
Qed.

(** So the engine's choice among equal keys does not show when the keys are
    pairwise distinct. *)
Lemma order_by_desc_ties_distinct tie l :
  NoDup (map key l) ->
  order_by_desc_ties key tie l = order_by_desc key l.
Proof.
  intros Hnd. apply sorted_perm_unique.
  - apply (Permutation_NoDup
             (Permutation_map key
                (Permutation_sym (order_by_desc_ties_perm tie l)))).
    exact Hnd.
  - apply order_by_desc_ties_sorted.
  - apply order_by_desc_sorted.
  - rewrite order_by_desc_ties_perm. symmetry. apply order_by_desc_perm.
Qed.

End Ties.

(** Cutting a list in [n] consecutive slices of [k] elements and gluing the
    slices together gives the list back, once [n] slices cover it. *)
Lemma slices_cover {A B} (f : A -> B) (k : nat) :
  forall (n : nat) (l : list A),
    (List.length l <= n * k)%nat ->
    flat_map (fun i => map f (firstn k (skipn (i * k) l))) (seq 0 n)
    = map f l.
Proof.
  induction n as [|n IH]; intros l Hlen.
  - destruct l; [reflexivity | simpl in Hlen; lia].
  - replace (seq 0 (S n)) with (0%nat :: map S (seq 0 n))
      by (simpl; now rewrite seq_shift).
    cbn [flat_map]. cbn [Nat.mul skipn].
    transitivity (map f (firstn k l ++ skipn k l));
      [|now rewrite firstn_skipn].
    rewrite map_app. f_equal.
    rewrite <- (IH (skipn k l)).
    + rewrite flat_map_concat_map, map_map, <- flat_map_concat_map.
      apply flat_map_ext. intros i. rewrite skipn_skipn.
      replace (S i * k)%nat with (i * k + k)%nat by lia. reflexivity.
    + rewrite length_skipn. simpl in Hlen. lia.
Qed.

(** In a quiet world, [list_urls] counts the whole table and returns the
    slice the page asks for of the rows as the engine orders them. *)
Lemma list_urls_quiet req page per_page w :
  quiet w -> 1 <= page -> 1 <= per_page ->
  fst (list_urls req page per_page w) =
    Return (PaginatedURLResponse.mk
              (Z.of_nat (List.length (tbl_urls (committed w))))
              page per_page
              (map (item_of (base_url_of req))
                 (firstn (Z.to_nat per_page)
                    (skipn (Z.to_nat ((page - 1) * per_page))
                       (order_by_desc_ties urls.created_at (urls_tie w)
                          (tbl_urls (committed w)))))))
  /\ committed (snd (list_urls req page per_page w)) = committed w.
Proof.
  intros Hq Hpage Hper.
  assert (Hlimit : (per_page <? 0) = false) by (apply Z.ltb_ge; lia).
  assert (Hoffset : ((page - 1) * per_page <? 0) = false)
    by (apply Z.ltb_ge; nia).
  open_world w.
  quiet_cases Hq sch 3%nat
    ltac:(run; rewrite Hlimit, Hoffset; split; reflexivity).
Qed.

Lemma pages_needed_cover (n : nat) (per_page : Z) :
  1 <= per_page ->
  (n <= pages_needed (Z.of_nat n) per_page * Z.to_nat per_page)%nat.
Proof.
  intros Hper. unfold pages_needed.
  set (a := Z.of_nat n + per_page - 1).
  pose proof (Z.div_mod a per_page ltac:(lia)) as Hdiv.
  pose proof (Z.mod_pos_bound a per_page ltac:(lia)) as Hmod.
  assert (Hq : 0 <= a / per_page) by (apply Z.div_pos; lia).
  rewrite <- Z2Nat.inj_mul by lia.
  apply Nat2Z.inj_le. rewrite Z2Nat.id by nia.
  subst a. nia.
Qed.

(** C8 (amended to what the query guarantees): for [page >= 1] and
    [per_page] in [1, 100], [total_items] is the number of all stored rows
    (expired ones included), whatever the page; the items are the slice at
    offset [(page - 1) * per_page] and of length at most [per_page] of the
    rows in a [created_at]-descending order, which is a rearrangement of the
    table.  When the [created_at] of the rows are pairwise distinct, that
    order is the same for every query, and gluing the pages
    [1 .. ceil(total / per_page)], each requested on its own over the same
    table, gives that whole order: every row once, none missing. *)
Theorem list_urls_pagination req page per_page w :
  quiet w -> 1 <= page -> 1 <= per_page <= 100 ->
  let rows := tbl_urls (committed w) in
  let ordered := order_by_desc_ties urls.created_at (urls_tie w) rows in
  let total := Z.of_nat (List.length rows) in
  fst (list_urls req page per_page w) =
    Return (PaginatedURLResponse.mk total page per_page
              (map (item_of (base_url_of req))
                 (firstn (Z.to_nat per_page)
                    (skipn (Z.to_nat ((page - 1) * per_page)) ordered))))
  /\ Permutation ordered rows
  /\ StronglySorted (desc urls.created_at) ordered
  /\ (NoDup (map urls.created_at rows) ->
      ordered = order_by_desc urls.created_at rows
      /\ forall ws : nat -> World,
           (forall p, quiet (ws p) /\ tbl_urls (committed (ws p)) = rows) ->
           flat_map (fun p => page_items req per_page (ws p) p)
             (seq 1 (pages_needed total per_page))
           = map (item_of (base_url_of req))
               (order_by_desc urls.created_at rows)).
Proof.
  intros Hq Hpage [Hper _] rows ordered total.
  split; [now apply list_urls_quiet|].
  split; [apply order_by_desc_ties_perm|].
  split; [apply order_by_desc_ties_sorted|].
  intros Hdistinct.
  split; [now apply order_by_desc_ties_distinct|].
  intros ws Hws.
  set (sorted := order_by_desc urls.created_at rows).
  rewrite <- seq_shift, flat_map_concat_map, map_map, <- flat_map_concat_map.
  rewrite <- (slices_cover (item_of (base_url_of req)) (Z.to_nat per_page)
                (pages_needed total per_page) sorted).
  - apply flat_map_ext. intros i. unfold page_items.
    destruct (Hws (S i)) as [Hqi Hrows].
    destruct (list_urls_quiet req (Z.of_nat (S i)) per_page (ws (S i)) Hqi)
      as [-> _]; [lia | lia |].
    cbn [PaginatedURLResponse.items]. rewrite Hrows.
    rewrite (order_by_desc_ties_distinct urls.created_at _ rows Hdistinct).
    fold sorted.
    replace (Z.to_nat ((Z.of_nat (S i) - 1) * per_page))
      with (i * Z.to_nat per_page)%nat; [reflexivity|].
    replace (Z.of_nat (S i) - 1) with (Z.of_nat i) by lia.
    rewrite Z2Nat.inj_mul by lia. now rewrite Nat2Z.id.
  - unfold sorted. rewrite (Permutation_length (order_by_desc_perm _ rows)).
    now apply pages_needed_cover.
Qed.

Lemma list_urls_pagination_witness :
  fst (list_urls sample_request 2 1 (world_of sample_db [])) =
    Return (PaginatedURLResponse.mk 2 2 1
              [Item.mk 2 "https://old.example" "http://testserver/old001"
                 400 (Some 500) "http://testserver/api/urls/old001/stats"])
  /\ flat_map (fun p => page_items sample_request 1
                          (world_with_tie sample_db (fun _ => Z.of_nat p)) p)
       (seq 1 (pages_needed 2 1))
     = map (item_of (base_url_of sample_request))
         (order_by_desc urls.created_at (tbl_urls sample_db)).
Proof.
  destruct (list_urls_pagination sample_request 2 1 (world_of sample_db []))
    as (Hpage & _ & _ & _); [reflexivity | lia | lia |].
  destruct (list_urls_pagination sample_request 1 1 (world_of sample_db []))
    as (_ & _ & _ & Hall); [reflexivity | lia | lia |].
  split.
  - rewrite Hpage. vm_compute. reflexivity.
  - destruct Hall as [_ Hall].
    + simpl. repeat constructor; simpl; intuition discriminate.
    + apply (Hall (fun p => world_with_tie sample_db (fun _ => Z.of_nat p))).
      intros p. split; reflexivity.
Defined.

(** C8, refuted as stated: two rows share their [created_at]; the query for
    page 1 and the query for page 2 (one item per page) get the two rows in
    opposite orders from the engine, so both pages show row 2 and row 1 is
    on no page. *)
Lemma list_urls_pagination_counterexample :
  let w1 := world_with_tie tied_db urls.id in
  let w2 := world_with_tie tied_db (fun r => - urls.id r) in
  quiet w1 /\ quiet w2
  /\ tbl_urls (committed w1) = tbl_urls (committed w2)
  /\ pages_needed (Z.of_nat (List.length (tbl_urls tied_db))) 1 = 2%nat
  /\ map Item.id (page_items sample_request 1 w1 1 ++
                    page_items sample_request 1 w2 2) = [2; 2].
Proof. vm_compute. repeat split. Qed.

(** * Further properties of the handlers *)

(** ** Single requests in a quiet world *)

Lemma find_none_existsb {A} (f : A -> bool) l :
  find f l = None -> existsb f l = false.
Proof.
  induction l as [|x l IH]; simpl; [reflexivity|].
  destruct (f x); [discriminate | exact IH].
Qed.

Lemma find_app_last {A} (f : A -> bool) l x :
  find f l = None -> f x = true -> find f (l ++ [x]) = Some x.
Proof.
  induction l as [|y l IH]; simpl; intros Hnone Hx.
  - now rewrite Hx.
  - destruct (f y); [discriminate | auto].
Qed.

Lemma has_short_path_set_original_url o now sp sp' x :
  has_short_path sp' (set_original_url o now sp x) = has_short_path sp' x.
Proof.
  unfold set_original_url. destruct (has_short_path sp x); reflexivity.
Qed.

Lemma find_set_original_url o now sp rows :
  find (has_short_path sp) (map (set_original_url o now sp) rows) =
  option_map (set_original_url o now sp) (find (has_short_path sp) rows).
Proof.
  induction rows as [|x rows IH]; simpl; [reflexivity|].
  rewrite has_short_path_set_original_url.
  destruct (has_short_path sp x); [reflexivity | exact IH].
Qed.

(** A Create whose expiry is computed and whose path is taken, in a quiet
    world. *)
Lemma create_url_quiet_taken data req w sp w1 expires_at r :
  quiet w ->
  resolve_short_path data w = (Return sp, w1) ->
  fst (compute_expires_at (URLCreate.expires_in_days data) w) =
    Return expires_at ->
  find (has_short_path sp) (tbl_urls (committed w)) = Some r ->
  fst (create_url data req w) =
    Raise (HTTPException 409
             (Some ("O caminho '" ++ sp ++ "' já está em uso")%string))
  /\ committed (snd (create_url data req w)) = committed w.
Proof.
  intros Hq Hres Hexp Hfind. start_create_with Hres Hexp w1. clear Hres Hexp.
  open_world w.
  quiet_cases Hq sch 2%nat ltac:(run; rewrite Hfind; run; auto).
Qed.

(** A Create whose expiry cannot be computed raises before anything else
    happens. *)
Lemma create_url_expiry_raises data req w e w' :
  compute_expires_at (URLCreate.expires_in_days data) w = (Raise e, w') ->
  fst (create_url data req w) = Raise e
  /\ committed (snd (create_url data req w)) = committed w.
Proof.
  intros Hexp.
  destruct (resolve_short_path_frame data w) as [sp [n Hres]].
  unfold create_url. rewrite (bind_Return _ _ _ _ _ Hres).
  destruct (compute_expires_at_cases (URLCreate.expires_in_days data)
              (with_rng_pos n w)) as [[y Hy]|[e' [He' _]]].
  - pose proof (compute_expires_at_clock (URLCreate.expires_in_days data) w
                  (with_rng_pos n w) eq_refl) as Hclock.
    rewrite Hy, Hexp in Hclock. discriminate Hclock.
  - pose proof (compute_expires_at_clock (URLCreate.expires_in_days data) w
                  (with_rng_pos n w) eq_refl) as Hclock.
    rewrite He', Hexp in Hclock. simpl in Hclock. inversion Hclock; subst.
    rewrite (bind_Raise _ _ _ _ _ He'). split; reflexivity.
Qed.

(** A redirect on a stored row that is not expired, for a request with a
    client address, in a quiet world. *)
Lemma redirect_url_quiet_live sp req w r host :
  quiet w ->
  find (has_short_path sp) (tbl_urls (committed w)) = Some r ->
  (forall t, urls.expires_at r = Some t -> py_now w <= t) ->
  Request.client req = Some host ->
  fst (redirect_url sp req w) =
    Return (RedirectResponse.mk (urls.original_url r))
  /\ committed (snd (redirect_url sp req w)) =
       mkDB (tbl_urls (committed w))
            (tbl_access_logs (committed w) ++
               [access_logs.mk (access_logs_id_seq w) (urls.id r) (db_now w)
                  (Some host) (Request.user_agent req)]).
Proof.
  intros Hq Hfind Hfresh Hclient.
  assert (Hfk : existsb (has_id (urls.id r)) (tbl_urls (committed w)) = true).
  { apply existsb_has_id. now apply find_has_short_path in Hfind. }
  open_world w.
  destruct (urls.expires_at r) as [t|] eqn:Hexp.
  - assert (Hnot : (t <? py) = false) by (apply Z.ltb_ge; auto).
    quiet_cases Hq sch 4%nat
      ltac:(run; rewrite Hfind; run; rewrite Hexp; run; rewrite Hnot; run;
            rewrite Hclient; run; rewrite Hfk; run; auto).
  - quiet_cases Hq sch 4%nat
      ltac:(run; rewrite Hfind; run; rewrite Hexp; run;
            rewrite Hclient; run; rewrite Hfk; run; auto).
Qed.

(** A redirect on a stored row that is expired, in a quiet world. *)
Lemma redirect_url_quiet_expired sp req w r t :
  quiet w ->
  find (has_short_path sp) (tbl_urls (committed w)) = Some r ->
  urls.expires_at r = Some t ->
  t < py_now w ->
  fst (redirect_url sp req w) =
    Raise (HTTPException 500 (Some "Erro interno ao processar o acesso"))
  /\ committed (snd (redirect_url sp req w)) = committed w.
Proof.
  intros Hq Hfind Hexp Hpast. open_world w.
  apply Z.ltb_lt in Hpast.
  quiet_cases Hq sch 2%nat
    ltac:(run; rewrite Hfind; run; rewrite Hexp; run; rewrite Hpast; run; auto).
Qed.

(** An Update of a stored path, in a quiet world. *)
Lemma update_url_quiet_found sp data req w r :
  quiet w ->
  find (has_short_path sp) (tbl_urls (committed w)) = Some r ->
  fst (update_url sp data req w) =
    Return (UpdateResponse.mk (urls.id r)
              (base_url_of req ++ "/" ++ sp)%string
              (URLUpdate.original_url data) (py_now w))
  /\ committed (snd (update_url sp data req w)) =
       mkDB (map (set_original_url (URLUpdate.original_url data) (db_now w) sp)
                 (tbl_urls (committed w)))
            (tbl_access_logs (committed w)).
Proof.
  intros Hq Hfind.
  pose proof (find_set_original_url (URLUpdate.original_url data) (db_now w) sp
                (tbl_urls (committed w))) as Hupd.
  rewrite Hfind in Hupd. cbn [option_map] in Hupd.
  assert (Hsp : has_short_path sp r = true)
    by (apply find_some in Hfind; tauto).
  unfold set_original_url in Hupd at 2. rewrite Hsp in Hupd.
  open_world w.
  quiet_cases Hq sch 3%nat ltac:(run; rewrite Hupd; run; auto).
Qed.

(** Statistics of a stored path, in a quiet world. *)
Lemma get_stats_quiet_found sp req w r :
  quiet w ->
  find (has_short_path sp) (tbl_urls (committed w)) = Some r ->
  let mine := filter (logs_of (urls.id r)) (tbl_access_logs (committed w)) in
  fst (get_stats sp req w) =
    Return (StatsResponse.mk
              (base_url_of req ++ "/" ++ sp)%string
              (urls.original_url r)
              (Z.of_nat (List.length mine))
              (Z.of_nat (List.length
                 (filter (fun l => db_now w - days 30 <=? access_logs.accessed_at l)
                         mine)))
              (map log_entry
                 (firstn 10 (order_by_desc_ties access_logs.accessed_at
                               (access_logs_tie w) mine))))
  /\ committed (snd (get_stats sp req w)) = committed w.
Proof.
  intros Hq Hfind mine. subst mine. open_world w.
  quiet_cases Hq sch 4%nat ltac:(run; rewrite Hfind; run; auto).
Qed.

Lemma In_firstn {A} n (l : list A) x : In x (firstn n l) -> In x l.
Proof.
  revert n. induction l as [|y l IH]; intros [|n]; simpl; try tauto.
  intros [->|H]; eauto.
Qed.

Lemma StronglySorted_firstn {A} (R : A -> A -> Prop) n l :
  StronglySorted R l -> StronglySorted R (firstn n l).
Proof.
  intros Hs. revert n. induction Hs as [|x l Hs IH Hall]; intros [|n]; simpl;
    try constructor; auto.
  rewrite Forall_forall in *. intros y Hy. apply Hall. eapply In_firstn; eauto.
Qed.

Lemma StronglySorted_map {A B} (R : A -> A -> Prop) (S : B -> B -> Prop)
    (f : A -> B) l :
  (forall a b, R a b -> S (f a) (f b)) ->
  StronglySorted R l -> StronglySorted S (map f l).
Proof.
  intros Hf. induction 1 as [|x l Hs IH Hall]; simpl; constructor; auto.
  rewrite Forall_forall in *. intros y Hy. apply in_map_iff in Hy.
  destruct Hy as [z [<- Hz]]. auto.
Qed.

Lemma length_filter_le {A} (f : A -> bool) l :
  (List.length (filter f l) <= List.length l)%nat.
Proof.
  induction l as [|x l IH]; simpl; [lia|]. destruct (f x); simpl; lia.
Qed.

(** X1: whatever the storage layer does (failures, concurrent commits) and
    whatever is stored, [redirect_url] never answers 404 or 410: it either
    returns the redirect or raises its one generic 500. *)
Theorem redirect_url_never_404_410 sp req w :
  status_of (fst (redirect_url sp req w)) <> Some 404
  /\ status_of (fst (redirect_url sp req w)) <> Some 410
  /\ ((exists resp, fst (redirect_url sp req w) = Return resp)
      \/ fst (redirect_url sp req w) =
           Raise (HTTPException 500 (Some "Erro interno ao processar o acesso"))).
Proof.
  destruct (redirect_url_outcomes sp req w) as [[resp H]|H]; rewrite H;
    repeat split; try discriminate; eauto.
Qed.

(** X2: a redirect on a stored, unexpired row by a request without client
    address ([request.client] is [None]) fails on [request.client.host]; the
    handler answers 500 and records no access. *)
Theorem redirect_url_without_client sp req w r :
  quiet w ->
  find (has_short_path sp) (tbl_urls (committed w)) = Some r ->
  (forall t, urls.expires_at r = Some t -> py_now w <= t) ->
  Request.client req = None ->
  fst (redirect_url sp req w) =
    Raise (HTTPException 500 (Some "Erro interno ao processar o acesso"))
  /\ committed (snd (redirect_url sp req w)) = committed w.
Proof.
  intros Hq Hfind Hfresh Hclient. open_world w.
  destruct (urls.expires_at r) as [t|] eqn:Hexp.
  - assert (Hnot : (t <? py) = false) by (apply Z.ltb_ge; auto).
    quiet_cases Hq sch 2%nat
      ltac:(run; rewrite Hfind; run; rewrite Hexp; run; rewrite Hnot; run;
            rewrite Hclient; run; auto).
  - quiet_cases Hq sch 2%nat
      ltac:(run; rewrite Hfind; run; rewrite Hexp; run;
            rewrite Hclient; run; auto).
Qed.

Lemma redirect_url_without_client_witness :
  fst (redirect_url "abc123" (Request.mk "http://testserver/" None None)
         (world_of sample_db [])) =
    Raise (HTTPException 500 (Some "Erro interno ao processar o acesso"))
  /\ committed (snd (redirect_url "abc123"
                       (Request.mk "http://testserver/" None None)
                       (world_of sample_db []))) = sample_db.
Proof.
  apply (redirect_url_without_client "abc123"
           (Request.mk "http://testserver/" None None) (world_of sample_db [])
           (urls.mk 1 "https://a.com" "abc123" 900 900 None)).
  - reflexivity.
  - reflexivity.
  - intros t Ht. discriminate Ht.
  - reflexivity.
Defined.

(** X3: statistics of a stored path, expired or not: the answer carries the
    stored [original_url]; [total_accesses] is the number of access logs of
    that row; [accesses_last_30_days] lies between 0 and [total_accesses];
    the entries listed are [min 10 total_accesses] in number, each one a log
    of that row, in descending order of [accessed_at]; and the tables are not
    changed. *)
Theorem get_stats_summary sp req w r :
  quiet w ->
  find (has_short_path sp) (tbl_urls (committed w)) = Some r ->
  exists resp,
    fst (get_stats sp req w) = Return resp
    /\ StatsResponse.original_url resp = urls.original_url r
    /\ StatsResponse.total_accesses resp =
         Z.of_nat (List.length (filter (logs_of (urls.id r))
                                  (tbl_access_logs (committed w))))
    /\ 0 <= StatsResponse.accesses_last_30_days resp
         <= StatsResponse.total_accesses resp
    /\ Z.of_nat (List.length (StatsResponse.access_logs resp)) =
         Z.min 10 (StatsResponse.total_accesses resp)
    /\ StronglySorted (desc LogEntry.accessed_at)
         (StatsResponse.access_logs resp)
    /\ (forall e, In e (StatsResponse.access_logs resp) ->
          exists l, In l (tbl_access_logs (committed w))
                    /\ access_logs.url_id l = urls.id r /\ e = log_entry l)
    /\ committed (snd (get_stats sp req w)) = committed w.
Proof.
  intros Hq Hfind.
  destruct (get_stats_quiet_found sp req w r Hq Hfind) as [Hout Hdb].
  eexists. split; [exact Hout|]. cbn [StatsResponse.original_url
    StatsResponse.total_accesses StatsResponse.accesses_last_30_days
    StatsResponse.access_logs].
  set (mine := filter (logs_of (urls.id r)) (tbl_access_logs (committed w))).
  split; [reflexivity|]. split; [reflexivity|]. split.
  { pose proof (length_filter_le
                  (fun l => db_now w - days 30 <=? access_logs.accessed_at l)
                  mine). lia. }
  split.
  { rewrite length_map, length_firstn,
      (Permutation_length
         (order_by_desc_ties_perm access_logs.accessed_at _ mine)).
    lia. }
  split.
  { apply (StronglySorted_map (desc access_logs.accessed_at)).
    - intros a b H. exact H.
    - apply StronglySorted_firstn, order_by_desc_ties_sorted. }
  split; [|exact Hdb].
  intros e He. apply in_map_iff in He. destruct He as [l [<- Hl]].
  apply In_firstn in Hl.
  apply (Permutation_in _
           (order_by_desc_ties_perm access_logs.accessed_at _ mine)) in Hl.
  apply filter_In in Hl. destruct Hl as [Hl Hid].
  exists l. repeat split; auto. now apply Z.eqb_eq.
Qed.

Lemma get_stats_summary_witness :
  exists resp,
    fst (get_stats "old001" sample_request (world_of sample_db [])) = Return resp
    /\ StatsResponse.original_url resp = "https://old.example"
    /\ StatsResponse.total_accesses resp = 1
    /\ 0 <= StatsResponse.accesses_last_30_days resp
         <= StatsResponse.total_accesses resp
    /\ Z.of_nat (List.length (StatsResponse.access_logs resp)) =
         Z.min 10 (StatsResponse.total_accesses resp)
    /\ StronglySorted (desc LogEntry.accessed_at)
         (StatsResponse.access_logs resp)
    /\ (forall e, In e (StatsResponse.access_logs resp) ->
          exists l, In l (tbl_access_logs sample_db)
                    /\ access_logs.url_id l = 2 /\ e = log_entry l)
    /\ committed (snd (get_stats "old001" sample_request
                         (world_of sample_db []))) = sample_db.
Proof.
  apply (get_stats_summary "old001" sample_request (world_of sample_db [])
           (urls.mk 2 "https://old.example" "old001" 400 400 (Some 500))).
  - reflexivity.
  - reflexivity.
Defined.

Lemma map_set_original_url_keeps {B} (f : urls.row -> B) o now sp rows :
  (forall x, f (set_original_url o now sp x) = f x) ->
  map f (map (set_original_url o now sp) rows) = map f rows.
Proof.
  intros H. rewrite map_map. apply map_ext. exact H.
Qed.

(** X4: an Update of a stored path, expired or not, answers with the row's
    [id], the new [original_url] and the handler's clock; in the table it
    changes [original_url] and [updated_at] of the rows with that path and
    nothing else: the [id], [short_path], [created_at] and [expires_at]
    columns, every other row and all access logs stay as they were. *)
Theorem update_url_changes_only_target sp data req w r :
  quiet w ->
  find (has_short_path sp) (tbl_urls (committed w)) = Some r ->
  let after := committed (snd (update_url sp data req w)) in
  fst (update_url sp data req w) =
    Return (UpdateResponse.mk (urls.id r)
              (base_url_of req ++ "/" ++ sp)%string
              (URLUpdate.original_url data) (py_now w))
  /\ tbl_access_logs after = tbl_access_logs (committed w)
  /\ map urls.id (tbl_urls after) = map urls.id (tbl_urls (committed w))
  /\ map urls.short_path (tbl_urls after) =
       map urls.short_path (tbl_urls (committed w))
  /\ map urls.created_at (tbl_urls after) =
       map urls.created_at (tbl_urls (committed w))
  /\ map urls.expires_at (tbl_urls after) =
       map urls.expires_at (tbl_urls (committed w))
  /\ (forall x, In x (tbl_urls after) -> urls.short_path x <> sp ->
        In x (tbl_urls (committed w)))
  /\ (forall x, In x (tbl_urls after) -> urls.short_path x = sp ->
        urls.original_url x = URLUpdate.original_url data
        /\ urls.updated_at x = db_now w).
Proof.
  intros Hq Hfind after.
  destruct (update_url_quiet_found sp data req w r Hq Hfind) as [Hout Hdb].
  subst after. rewrite Hdb. cbn [tbl_urls tbl_access_logs].
  split; [exact Hout|]. split; [reflexivity|].
  assert (Hkeep : forall B (f : urls.row -> B),
            (forall o now x,
               f (urls.mk (urls.id x) o (urls.short_path x) (urls.created_at x)
                          now (urls.expires_at x)) = f x) ->
            forall x, f (set_original_url (URLUpdate.original_url data)
                           (db_now w) sp x) = f x).
  { intros B f Hf x. unfold set_original_url.
    destruct (has_short_path sp x); [apply Hf | reflexivity]. }
  repeat split.
  - apply map_set_original_url_keeps, Hkeep. reflexivity.
  - apply map_set_original_url_keeps, Hkeep. reflexivity.
  - apply map_set_original_url_keeps, Hkeep. reflexivity.
  - apply map_set_original_url_keeps, Hkeep. reflexivity.
  - intros x Hin Hsp. apply in_map_iff in Hin. destruct Hin as [y [Hy Hin]].
    unfold set_original_url in Hy. destruct (has_short_path sp y) eqn:E.
    + subst x. simpl in Hsp. apply String.eqb_eq in E. contradiction.
    + now subst x.
  - eapply set_original_url_spec; eauto.
  - eapply set_original_url_spec; eauto.
Qed.

Lemma update_url_changes_only_target_witness :
  let after := committed (snd (update_url "old001"
                 (URLUpdate.mk "https://new.example") sample_request
                 (world_of sample_db []))) in
  fst (update_url "old001" (URLUpdate.mk "https://new.example") sample_request
         (world_of sample_db [])) =
    Return (UpdateResponse.mk 2 "http://testserver/old001"
              "https://new.example" 1000)
  /\ tbl_access_logs after = tbl_access_logs sample_db
  /\ map urls.expires_at (tbl_urls after) = [None; Some 500].
Proof.
  intros after.
  destruct (update_url_changes_only_target "old001"
              (URLUpdate.mk "https://new.example") sample_request
              (world_of sample_db [])
              (urls.mk 2 "https://old.example" "old001" 400 400 (Some 500))
              eq_refl eq_refl)
    as (Hout & Hlogs & _ & _ & _ & Hexp & _).
  repeat split; assumption.
Defined.

(** X5: Update, statistics and Delete of a path that no stored row has
    answer 404 and leave both tables as they were. *)
Theorem missing_path_is_404 sp data req w :
  quiet w ->
  (forall r, In r (tbl_urls (committed w)) -> urls.short_path r <> sp) ->
  (fst (update_url sp data req w) =
     Raise (HTTPException 404 (Some "URL não encontrada"))
   /\ committed (snd (update_url sp data req w)) = committed w)
  /\ (fst (get_stats sp req w) =
        Raise (HTTPException 404 (Some "URL não encontrada"))
      /\ committed (snd (get_stats sp req w)) = committed w)
  /\ (fst (delete_url sp w) =
        Raise (HTTPException 404 (Some "URL não encontrada"))
      /\ committed (snd (delete_url sp w)) = committed w).
Proof.
  intros Hq Hmissing. apply find_has_short_path_None in Hmissing.
  assert (Hupd : forall now,
            find (has_short_path sp)
              (map (set_original_url (URLUpdate.original_url data) now sp)
                   (tbl_urls (committed w))) = None).
  { intros now. now rewrite find_set_original_url, Hmissing. }
  open_world w. repeat split.
  - quiet_cases Hq sch 2%nat ltac:(run; rewrite Hupd; run; auto).
  - quiet_cases Hq sch 2%nat ltac:(run; rewrite Hupd; run; auto).
  - quiet_cases Hq sch 2%nat ltac:(run; rewrite Hmissing; run; auto).
  - quiet_cases Hq sch 2%nat ltac:(run; rewrite Hmissing; run; auto).
  - quiet_cases Hq sch 2%nat ltac:(run; rewrite Hmissing; run; auto).
  - quiet_cases Hq sch 2%nat ltac:(run; rewrite Hmissing; run; auto).
Qed.

Lemma missing_path_is_404_witness :
  (fst (update_url "nope00" (URLUpdate.mk "https://new.example")
          sample_request (world_of sample_db [])) =
     Raise (HTTPException 404 (Some "URL não encontrada"))
   /\ committed (snd (update_url "nope00" (URLUpdate.mk "https://new.example")
                        sample_request (world_of sample_db []))) = sample_db)
  /\ (fst (get_stats "nope00" sample_request (world_of sample_db [])) =
        Raise (HTTPException 404 (Some "URL não encontrada"))
      /\ committed (snd (get_stats "nope00" sample_request
                           (world_of sample_db []))) = sample_db)
  /\ (fst (delete_url "nope00" (world_of sample_db [])) =
        Raise (HTTPException 404 (Some "URL não encontrada"))
      /\ committed (snd (delete_url "nope00" (world_of sample_db []))) =
           sample_db).
Proof.
  apply (missing_path_is_404 "nope00" (URLUpdate.mk "https://new.example")
           sample_request (world_of sample_db [])).
  - reflexivity.
  - intros r [<-|[<-|[]]]; discriminate.
Defined.

(** X6: Delete of a stored path touches nothing else: with [id] a key of
    table [urls], every row with another path is still stored, every access
    log of another row is still stored, and nothing is added. *)
Theorem delete_url_keeps_the_rest sp w r :
  quiet w ->
  NoDup (map urls.id (tbl_urls (committed w))) ->
  find (has_short_path sp) (tbl_urls (committed w)) = Some r ->
  let after := committed (snd (delete_url sp w)) in
  (forall x, In x (tbl_urls (committed w)) -> urls.short_path x <> sp ->
     In x (tbl_urls after))
  /\ (forall l, In l (tbl_access_logs (committed w)) ->
        access_logs.url_id l <> urls.id r -> In l (tbl_access_logs after))
  /\ (forall x, In x (tbl_urls after) -> In x (tbl_urls (committed w)))
  /\ (forall l, In l (tbl_access_logs after) ->
        In l (tbl_access_logs (committed w))).
Proof.
  intros Hq Hkey Hfind after.
  destruct (delete_url_quiet sp w r Hq Hfind) as (_ & Hdb & _).
  subst after. rewrite Hdb. cbn [tbl_urls tbl_access_logs].
  apply find_has_short_path in Hfind. destruct Hfind as [Hr Hsp].
  repeat split.
  - intros x Hx Hother. apply filter_In. split; [exact Hx|].
    unfold has_id. destruct (urls.id x =? urls.id r) eqn:E; [|reflexivity].
    apply Z.eqb_eq in E. exfalso. apply Hother.
    assert (x = r); [|congruence].
    clear - Hkey Hx Hr E. induction (tbl_urls (committed w)) as [|y rows IH];
      simpl in *; [contradiction|].
    inversion Hkey as [|? ? Hnotin Hnd]; subst.
    destruct Hx as [->|Hx], Hr as [->|Hr]; auto.
    + exfalso. apply Hnotin. rewrite E. now apply in_map.
    + exfalso. apply Hnotin. rewrite <- E. now apply in_map.
  - intros l Hl Hother. apply filter_In. split; [exact Hl|].
    unfold logs_of. destruct (access_logs.url_id l =? urls.id r) eqn:E;
      [|reflexivity]. apply Z.eqb_eq in E. contradiction.
  - intros x Hx. now apply filter_In in Hx.
  - intros l Hl. now apply filter_In in Hl.
Qed.

Lemma delete_url_keeps_the_rest_witness :
  let after := committed (snd (delete_url "abc123" (world_of sample_db []))) in
  (forall x, In x (tbl_urls sample_db) -> urls.short_path x <> "abc123" ->
     In x (tbl_urls after))
  /\ (forall l, In l (tbl_access_logs sample_db) ->
        access_logs.url_id l <> 1 -> In l (tbl_access_logs after))
  /\ (forall x, In x (tbl_urls after) -> In x (tbl_urls sample_db))
  /\ (forall l, In l (tbl_access_logs after) ->
        In l (tbl_access_logs sample_db)).
Proof.
  apply (delete_url_keeps_the_rest "abc123" (world_of sample_db [])
           (urls.mk 1 "https://a.com" "abc123" 900 900 None)).
  - reflexivity.
  - simpl. repeat constructor; simpl; intuition discriminate.
  - reflexivity.
Defined.

(** ** Failures, atomicity and invariants *)


(** Case analysis on whatever a run is stuck on. *)
Ltac split_stuck :=
  repeat match goal with
         | |- context [find ?f ?l] =>
             let E := fresh "Efind" in destruct (find f l) eqn:E; run
         | |- context [existsb ?f ?l] =>
             let E := fresh "Eex" in destruct (existsb f l) eqn:E; run
         | |- context [match urls.expires_at ?r with _ => _ end] =>
             let E := fresh "Eexp" in destruct (urls.expires_at r) eqn:E; run
         | |- context [if ?a <? ?b then _ else _] =>
             let E := fresh "Eltb" in destruct (a <? b) eqn:E; run
         | |- context [match Request.client ?r with _ => _ end] =>
             let E := fresh "Ecli" in destruct (Request.client r) eqn:E; run
         end.












(** X9: while the storage layer behaves, Create (once its expiry, if any,
    is computed), Update, statistics, Delete and List (for [page >= 1],
    [per_page >= 1]) never answer 500 and never let an exception escape:
    they return, or refuse with 404 or 409.  In particular, without a
    concurrent Create the unique constraint is never hit, and Delete never
    trips over the logs it has just removed. *)
Theorem quiet_requests_return_or_refuse w :
  quiet w ->
  (forall data req expires_at,
     fst (compute_expires_at (URLCreate.expires_in_days data) w) =
       Return expires_at ->
     ok_or_refused (fst (create_url data req w)) = true)
  /\ (forall sp data req, ok_or_refused (fst (update_url sp data req w)) = true)
  /\ (forall sp req, ok_or_refused (fst (get_stats sp req w)) = true)
  /\ (forall sp, ok_or_refused (fst (delete_url sp w)) = true)
  /\ (forall req page per_page,
        1 <= page -> 1 <= per_page ->
        ok_or_refused (fst (list_urls req page per_page w)) = true).
Proof.
  intros Hq.
  split; [|split; [|split; [|split]]]; intros.
  - destruct (resolve_short_path_frame data w) as [sp [n Hres]].
    destruct (find (has_short_path sp) (tbl_urls (committed w))) as [r|] eqn:E.
    + destruct (create_url_quiet_taken data req w sp _ _ r Hq Hres H E)
        as [-> _].
      reflexivity.
    + destruct (create_url_quiet_free data req w sp _ _ Hq Hres H E) as [-> _].
      reflexivity.
  - open_world w.
    quiet_cases Hq sch 3%nat ltac:(run; split_stuck; reflexivity).
  - open_world w.
    quiet_cases Hq sch 4%nat ltac:(run; split_stuck; reflexivity).
  - open_world w.
    quiet_cases Hq sch 5%nat
      ltac:(run; split_stuck; rewrite ?existsb_filter_negb in *;
            first [ reflexivity | discriminate ]).
  - destruct (list_urls_quiet req page per_page w Hq) as [-> _]; auto.
Qed.

Lemma quiet_requests_return_or_refuse_witness :
  ok_or_refused (fst (create_url (URLCreate.mk "https://b.com" (Some "abc123") None)
                        sample_request (world_of sample_db []))) = true
  /\ ok_or_refused (fst (delete_url "abc123" (world_of sample_db []))) = true.
Proof.
  destruct (quiet_requests_return_or_refuse (world_of sample_db []) eq_refl)
    as (Hcreate & _ & _ & Hdelete & _).
  split; [apply (Hcreate _ _ None); reflexivity | apply Hdelete].
Defined.

(** ** Requests in sequence

    A later request runs in a world of its own (its own clocks, schedule and
    request data) over the tables the earlier request left. *)



(** X11: a link created with an expiry that has passed when it is followed
    (for instance a negative [expires_in_days]) cannot be followed: the
    redirect answers 500 (its 410 is caught by the handler's own
    [except Exception] clause) and records no access. *)
Theorem create_expired_then_redirect data req w sp w1 req2 w2 d :
  quiet w ->
  resolve_short_path data w = (Return sp, w1) ->
  find (has_short_path sp) (tbl_urls (committed w)) = None ->
  URLCreate.expires_in_days data = Some (finite_days d) ->
  quiet w2 ->
  committed w2 = committed (snd (create_url data req w)) ->
  py_now w + d < py_now w2 ->
  fst (redirect_url sp req2 w2) =
    Raise (HTTPException 500 (Some "Erro interno ao processar o acesso"))
  /\ committed (snd (redirect_url sp req2 w2)) = committed w2.
Proof.
  intros Hq Hres Hfree Hd Hq2 Hw2 Hpast.
  destruct (compute_expires_at_cases (URLCreate.expires_in_days data) w)
    as [[expires_at Hexp]|[e [Hexp _]]].
  - assert (Hexp' : fst (compute_expires_at (URLCreate.expires_in_days data) w)
                    = Return expires_at) by now rewrite Hexp.
    destruct (create_url_quiet_free data req w sp w1 _ Hq Hres Hexp' Hfree)
      as [_ Hdb].
    rewrite <- Hw2 in Hdb. rewrite Hd in Hexp'.
    apply compute_expires_at_finite in Hexp'. subst expires_at.
    apply (redirect_url_quiet_expired sp req2 w2
             (urls.mk (urls_id_seq w) (URLCreate.original_url data) sp
                (db_now w) (db_now w) (Some (py_now w + d)))
             (py_now w + d)); auto.
    rewrite Hdb. cbn [tbl_urls]. apply find_app_last; [exact Hfree|].
    unfold has_short_path. simpl. apply String.eqb_refl.
  - destruct (create_url_expiry_raises data req w e w Hexp) as [_ Hdb].
    rewrite <- Hw2 in Hdb.
    destruct (redirect_url_absent sp req2 w2 Hq2) as [Hout Hsame].
    + rewrite Hdb. now apply find_has_short_path_None.
    + split; assumption.
Qed.

Lemma create_expired_then_redirect_witness :
  let data := URLCreate.mk "https://example.com" (Some "fresh1")
                (Some (finite_days (days (-1)))) in
  let w := world_of sample_db [] in
  let w2 := mkWorld (committed (snd (create_url data sample_request w)))
              None 4 3 [] [] 1001 1006 sample_rng 6
              (fun _ => 0) (fun _ => 0) in
  fst (redirect_url "fresh1" sample_request w2) =
    Raise (HTTPException 500 (Some "Erro interno ao processar o acesso"))
  /\ committed (snd (redirect_url "fresh1" sample_request w2)) = committed w2.
Proof.
  intros data w w2.
  apply (create_expired_then_redirect data sample_request w "fresh1" w
           sample_request w2 (days (-1))).
  - reflexivity.
  - reflexivity.
  - reflexivity.
  - reflexivity.
  - reflexivity.
  - vm_compute. reflexivity.
  - vm_compute. reflexivity.
Defined.



(** X13: every recorded access counts.  After a successful redirect, the
    [total_accesses] that statistics report for that path is one more than
    what they reported before it. *)
Theorem redirect_then_stats sp req w r host req2 w2 :
  quiet w ->
  find (has_short_path sp) (tbl_urls (committed w)) = Some r ->
  (forall t, urls.expires_at r = Some t -> py_now w <= t) ->
  Request.client req = Some host ->
  quiet w2 ->
  committed w2 = committed (snd (redirect_url sp req w)) ->
  exists before after,
    fst (get_stats sp req2 w) = Return before
    /\ fst (get_stats sp req2 w2) = Return after
    /\ StatsResponse.total_accesses after =
         StatsResponse.total_accesses before + 1.
Proof.
  intros Hq Hfind Hlive Hclient Hq2 Hw2.
  destruct (redirect_url_quiet_live sp req w r host Hq Hfind Hlive Hclient)
    as [_ Hdb].
  rewrite <- Hw2 in Hdb.
  assert (Hfind2 : find (has_short_path sp) (tbl_urls (committed w2)) = Some r)
    by (rewrite Hdb; exact Hfind).
  destruct (get_stats_quiet_found sp req2 w r Hq Hfind) as [Hbefore _].
  destruct (get_stats_quiet_found sp req2 w2 r Hq2 Hfind2) as [Hafter _].
  cbv zeta in Hbefore, Hafter.
  eexists. eexists. split; [exact Hbefore|]. split; [exact Hafter|].
  cbn [StatsResponse.total_accesses]. rewrite Hdb. cbn [tbl_access_logs].
  assert (Hone : forall k i now ip ua,
            filter (logs_of i) [access_logs.mk k i now ip ua] =
            [access_logs.mk k i now ip ua]).
  { intros. simpl. unfold logs_of. simpl. now rewrite Z.eqb_refl. }
  rewrite filter_app, length_app, Hone. cbn [List.length]. lia.
Qed.

Lemma redirect_then_stats_witness :
  let w := world_of sample_db [] in
  let w2 := world_of (committed (snd (redirect_url "abc123" sample_request w)))
              [] in
  exists before after,
    fst (get_stats "abc123" sample_request w) = Return before
    /\ fst (get_stats "abc123" sample_request w2) = Return after
    /\ StatsResponse.total_accesses after =
         StatsResponse.total_accesses before + 1.
Proof.
  intros w w2.
  apply (redirect_then_stats "abc123" sample_request w
           (urls.mk 1 "https://a.com" "abc123" 900 900 None) "127.0.0.1"
           sample_request w2).
  - reflexivity.
  - reflexivity.
  - intros t Ht. discriminate Ht.
  - reflexivity.
  - reflexivity.
  - vm_compute. reflexivity.
Defined.

(** X14: a deleted path can be taken again.  After Delete of a stored path
    (with [short_path] unique in the table), a Create that asks for that same
    path, and whose expiry (if any) is computed, succeeds. *)
Theorem delete_then_create sp w r data req w2 expires_at :
  quiet w ->
  short_path_unique (committed w) ->
  find (has_short_path sp) (tbl_urls (committed w)) = Some r ->
  quiet w2 ->
  committed w2 = committed (snd (delete_url sp w)) ->
  URLCreate.short_path data = Some sp ->
  sp <> EmptyString ->
  fst (compute_expires_at (URLCreate.expires_in_days data) w2) =
    Return expires_at ->
  exists resp,
    fst (create_url data req w2) = Return resp
    /\ CreateResponse.short_url resp = (base_url_of req ++ "/" ++ sp)%string
    /\ CreateResponse.original_url resp = URLCreate.original_url data
    /\ exists row, In row (tbl_urls (committed (snd (create_url data req w2))))
                   /\ urls.short_path row = sp
                   /\ urls.original_url row = URLCreate.original_url data.
Proof.
  intros Hq Huniq Hfind Hq2 Hw2 Hpath Hne Hexp.
  destruct (delete_url_quiet sp w r Hq Hfind) as (_ & Hdb & _).
  rewrite <- Hw2 in Hdb.
  assert (Hfree : find (has_short_path sp) (tbl_urls (committed w2)) = None).
  { apply find_has_short_path_None. intros x Hin Hsp.
    rewrite Hdb in Hin. cbn [tbl_urls] in Hin.
    apply filter_In in Hin. destruct Hin as [Hin Hid].
    apply find_has_short_path in Hfind. destruct Hfind as [Hr Hrsp].
    assert (x = r) by (eapply short_path_unique_inj; eauto; congruence).
    subst x. unfold has_id in Hid. rewrite Z.eqb_refl in Hid. discriminate. }
  assert (Hres : resolve_short_path data w2 = (Return sp, w2)).
  { unfold resolve_short_path. rewrite Hpath.
    destruct sp; [contradiction | reflexivity]. }
  destruct (create_url_quiet_free data req w2 sp w2 _ Hq2 Hres Hexp Hfree)
    as [Hout Hdb2].
  eexists. split; [exact Hout|]. split; [reflexivity|]. split; [reflexivity|].
  eexists. rewrite Hdb2. cbn [tbl_urls]. split.
  - apply in_or_app. right. left. reflexivity.
  - split; reflexivity.
Qed.

Lemma delete_then_create_witness :
  let w := world_of sample_db [] in
  let w2 := world_of (committed (snd (delete_url "abc123" w))) [] in
  let data := URLCreate.mk "https://again.example" (Some "abc123") None in
  exists resp,
    fst (create_url data sample_request w2) = Return resp
    /\ CreateResponse.short_url resp = "http://testserver/abc123"
    /\ CreateResponse.original_url resp = "https://again.example"
    /\ exists row,
         In row (tbl_urls (committed (snd (create_url data sample_request w2))))
         /\ urls.short_path row = "abc123"
         /\ urls.original_url row = "https://again.example".
Proof.
  intros w w2 data.
  destruct (delete_then_create "abc123" w
              (urls.mk 1 "https://a.com" "abc123" 900 900 None)
              data sample_request w2 None) as (resp & H1 & H2 & H3 & H4).
  - reflexivity.
  - unfold short_path_unique. simpl.
    repeat constructor; simpl; intuition discriminate.
  - reflexivity.
  - reflexivity.
  - vm_compute. reflexivity.
  - reflexivity.
  - discriminate.
  - reflexivity.
  - exists resp. split; [exact H1|]. split.
    + rewrite H2. vm_compute. reflexivity.
    + split; [exact H3 | exact H4].
Defined.

(** X15: the size of a page.  For [page >= 1] and [per_page >= 1], a page
    never holds more than [per_page] items; a page that lies wholly inside
    the table holds exactly [per_page]; a page past the end is empty, and
    still reports the full [total_items]. *)
Theorem list_urls_page_size req page per_page w :
  quiet w -> 1 <= page -> 1 <= per_page ->
  let total := Z.of_nat (List.length (tbl_urls (committed w))) in
  exists resp,
    fst (list_urls req page per_page w) = Return resp
    /\ PaginatedURLResponse.total_items resp = total
    /\ Z.of_nat (List.length (PaginatedURLResponse.items resp)) <= per_page
    /\ (page * per_page <= total ->
        Z.of_nat (List.length (PaginatedURLResponse.items resp)) = per_page)
    /\ (total <= (page - 1) * per_page ->
        PaginatedURLResponse.items resp = []).
Proof.
  intros Hq Hpage Hper total.
  destruct (list_urls_quiet req page per_page w Hq Hpage Hper) as [Hout _].
  eexists. split; [exact Hout|].
  cbn [PaginatedURLResponse.total_items PaginatedURLResponse.items].
  split; [reflexivity|].
  set (sorted := order_by_desc_ties urls.created_at (urls_tie w)
                    (tbl_urls (committed w))).
  assert (Hlen : Z.of_nat (List.length sorted) = total).
  { unfold sorted, total.
    now rewrite (Permutation_length
                   (order_by_desc_ties_perm urls.created_at _ _)). }
  rewrite length_map, length_firstn, length_skipn.
  assert (Hoff : 0 <= (page - 1) * per_page) by nia.
  repeat split.
  - lia.
  - intros Hfull. nia.
  - intros Hpast. rewrite skipn_all2; [now destruct (Z.to_nat per_page)|]. lia.
Qed.

Lemma list_urls_page_size_witness :
  exists resp,
    fst (list_urls sample_request 3 1 (world_of sample_db [])) = Return resp
    /\ PaginatedURLResponse.total_items resp = 2
    /\ Z.of_nat (List.length (PaginatedURLResponse.items resp)) <= 1
    /\ (3 * 1 <= 2 ->
        Z.of_nat (List.length (PaginatedURLResponse.items resp)) = 1)
    /\ (2 <= (3 - 1) * 1 -> PaginatedURLResponse.items resp = []).
Proof.
  apply (list_urls_page_size sample_request 3 1 (world_of sample_db []));
    [reflexivity | lia | lia].
Defined.

(** X16: an empty [short_path] counts as none.  A Create whose
    [short_path] is the empty string is assigned a generated token of six
    lowercase letters or digits, as if the field had been omitted; when
    moreover its expiry (if any) is computed, that token is free and the
    storage layer behaves, the row is stored under the token, never under
    the empty path. *)
Theorem create_url_empty_path_is_generated data req w :
  URLCreate.short_path data = Some EmptyString ->
  exists token w1,
    resolve_short_path data w = (Return token, w1)
    /\ lower_alnum_token token
    /\ (quiet w ->
        find (has_short_path token) (tbl_urls (committed w)) = None ->
        forall expires_at,
          fst (compute_expires_at (URLCreate.expires_in_days data) w) =
            Return expires_at ->
          exists resp,
            fst (create_url data req w) = Return resp
            /\ CreateResponse.short_url resp =
                 (base_url_of req ++ "/" ++ token)%string
            /\ map urls.short_path
                   (tbl_urls (committed (snd (create_url data req w)))) =
                 map urls.short_path (tbl_urls (committed w)) ++ [token]).
Proof.
  intros Hempty.
  destruct (generate_short_path_spec w) as [token [Hgen Htok]].
  assert (Hres : resolve_short_path data w =
                 (Return token, with_rng_pos (rng_pos w + 6) w)).
  { unfold resolve_short_path. rewrite Hempty. exact Hgen. }
  exists token, (with_rng_pos (rng_pos w + 6) w).
  split; [exact Hres|]. split; [exact Htok|].
  intros Hq Hfree expires_at Hexp.
  destruct (create_url_quiet_free data req w token _ _ Hq Hres Hexp Hfree)
    as [Hout Hdb].
  eexists. split; [exact Hout|]. split; [reflexivity|].
  rewrite Hdb. cbn [tbl_urls]. now rewrite map_app.
Qed.

Lemma create_url_empty_path_is_generated_witness :
  exists token w1,
    resolve_short_path (URLCreate.mk "https://example.com" (Some "") None)
      (world_of sample_db []) = (Return token, w1)
    /\ lower_alnum_token token
    /\ (quiet (world_of sample_db []) ->
        find (has_short_path token) (tbl_urls sample_db) = None ->
        forall expires_at,
          fst (compute_expires_at None (world_of sample_db [])) =
            Return expires_at ->
          exists resp,
            fst (create_url (URLCreate.mk "https://example.com" (Some "") None)
                   sample_request (world_of sample_db [])) = Return resp
            /\ CreateResponse.short_url resp =
                 (base_url_of sample_request ++ "/" ++ token)%string
            /\ map urls.short_path
                   (tbl_urls (committed (snd (create_url
                      (URLCreate.mk "https://example.com" (Some "") None)
                      sample_request (world_of sample_db []))))) =
                 map urls.short_path (tbl_urls sample_db) ++ [token]).
Proof.
  apply (create_url_empty_path_is_generated
           (URLCreate.mk "https://example.com" (Some "") None) sample_request
           (world_of sample_db [])).
  reflexivity.
Defined.
